(** * kilo: terminal raw mode and the byte-read loop

    A shallow embedding of [kilo.c]: the [termios] record and the flag
    arithmetic of [enableRawMode], the process-wide state the program
    touches (terminal device, [orig_termios], [errno], the [atexit]
    registry, the standard streams), and the functions [die],
    [disableRawMode], [enableRawMode] and [main] written in a small
    state-and-exit monad over that state. *)

From Stdlib Require Import ZArith String Ascii List Lia Bool.
From Stdlib Require Import DecimalString DecimalPos DecimalZ.
From stdpp Require Import base list.

Local Open Scope string_scope.
Local Open Scope list_scope.
Local Open Scope Z_scope.

(** ** The platform headers

    [kilo.c] takes its constants from [<termios.h>] and [<errno.h>] and
    leaves the signedness of [char] to the compiler.  They are collected
    in one interface; [linux_x86_64] below gives the values of the glibc
    headers. *)

Class Platform := {
  tcflag_bits : Z;     (* width of tcflag_t *)
  NCCS : nat;
  VMIN : nat;
  VTIME : nat;
  (* c_iflag *)
  BRKINT : Z;
  ICRNL : Z;
  INPCK : Z;
  ISTRIP : Z;
  IXON : Z;
  (* c_oflag *)
  OPOST : Z;
  (* c_cflag *)
  CS8 : Z;
  (* c_lflag *)
  ECHO : Z;
  ICANON : Z;
  IEXTEN : Z;
  ISIG : Z;
  (* errno.h *)
  EAGAIN : Z;
  EINTR : Z;
  (* whether plain char is a signed type *)
  char_signed : bool
}.

(** glibc on x86-64: bits/termios-c_iflag.h, termios-c_oflag.h,
    termios-c_cflag.h, termios-c_lflag.h, termios-c_cc.h,
    termios-struct.h and asm-generic/errno-base.h (the header values are
    octal). *)
Definition linux_x86_64 : Platform := {|
  tcflag_bits := 32;
  NCCS := 32;
  VMIN := 6;
  VTIME := 5;
  BRKINT := 0x2;
  ICRNL := 0x100;
  INPCK := 0x10;
  ISTRIP := 0x20;
  IXON := 0x400;
  OPOST := 0x1;
  CS8 := 0x30;
  ECHO := 0x8;
  ICANON := 0x2;
  IEXTEN := 0x8000;
  ISIG := 0x1;
  EAGAIN := 11;
  EINTR := 4;
  char_signed := true
|}.

(** ** struct termios *)

Record termios := {
  c_iflag : Z;
  c_oflag : Z;
  c_cflag : Z;
  c_lflag : Z;
  c_line : Z;
  c_cc : list Z;
  c_ispeed : Z;
  c_ospeed : Z
}.

Definition set_c_iflag (v : Z) (t : termios) : termios :=
  {| c_iflag := v; c_oflag := c_oflag t; c_cflag := c_cflag t;
     c_lflag := c_lflag t; c_line := c_line t; c_cc := c_cc t;
     c_ispeed := c_ispeed t; c_ospeed := c_ospeed t |}.

Definition set_c_lflag (v : Z) (t : termios) : termios :=
  {| c_iflag := c_iflag t; c_oflag := c_oflag t; c_cflag := c_cflag t;
     c_lflag := v; c_line := c_line t; c_cc := c_cc t;
     c_ispeed := c_ispeed t; c_ospeed := c_ospeed t |}.

Definition set_c_cc (v : list Z) (t : termios) : termios :=
  {| c_iflag := c_iflag t; c_oflag := c_oflag t; c_cflag := c_cflag t;
     c_lflag := c_lflag t; c_line := c_line t; c_cc := v;
     c_ispeed := c_ispeed t; c_ospeed := c_ospeed t |}.

(** ** The process state

    Everything the program reads or writes: the configuration of the
    terminal behind [STDIN_FILENO], the global [orig_termios], [errno],
    the functions registered with [atexit], and what has been written to
    the two output streams.  The operating system's answers are scripted:
    [tcgetattr_results] and [tcsetattr_results] give the outcome of the
    successive calls (a call past the end of its script succeeds) and
    [stdin] the outcome of the successive [read] calls. *)

Inductive sysret :=
| Success
| Failure (e : Z).      (* -1 with errno set to e *)

Inductive read_result :=
| Read_byte (b : ascii) (* one byte delivered, read returns 1 *)
| Read_none             (* VTIME elapsed or end of file, read returns 0 *)
| Read_error (e : Z).   (* read returns -1 with errno set to e *)

Inductive handler :=
| Handler_disableRawMode.

Inductive event :=
| Ev_tcgetattr (r : sysret)
| Ev_atexit (h : handler)
| Ev_tcsetattr (t : termios) (r : sysret)
| Ev_read (r : read_result)
| Ev_call_disableRawMode
| Ev_return_enableRawMode.

Record world := {
  tty : termios;
  orig_termios : termios;
  errno : Z;
  atexit_handlers : list handler;      (* most recently registered first *)
  stdout : string;
  stderr : list (string * Z);          (* perror: the prefix and errno *)
  tcgetattr_results : list sysret;
  tcsetattr_results : list sysret;
  stdin : list read_result;
  trace : list event                   (* oldest first *)
}.

Definition set_tty (v : termios) (w : world) : world :=
  {| tty := v; orig_termios := orig_termios w; errno := errno w;
     atexit_handlers := atexit_handlers w; stdout := stdout w;
     stderr := stderr w; tcgetattr_results := tcgetattr_results w;
     tcsetattr_results := tcsetattr_results w; stdin := stdin w;
     trace := trace w |}.

Definition set_orig_termios (v : termios) (w : world) : world :=
  {| tty := tty w; orig_termios := v; errno := errno w;
     atexit_handlers := atexit_handlers w; stdout := stdout w;
     stderr := stderr w; tcgetattr_results := tcgetattr_results w;
     tcsetattr_results := tcsetattr_results w; stdin := stdin w;
     trace := trace w |}.

Definition set_errno (v : Z) (w : world) : world :=
  {| tty := tty w; orig_termios := orig_termios w; errno := v;
     atexit_handlers := atexit_handlers w; stdout := stdout w;
     stderr := stderr w; tcgetattr_results := tcgetattr_results w;
     tcsetattr_results := tcsetattr_results w; stdin := stdin w;
     trace := trace w |}.

Definition set_atexit_handlers (v : list handler) (w : world) : world :=
  {| tty := tty w; orig_termios := orig_termios w; errno := errno w;
     atexit_handlers := v; stdout := stdout w;
     stderr := stderr w; tcgetattr_results := tcgetattr_results w;
     tcsetattr_results := tcsetattr_results w; stdin := stdin w;
     trace := trace w |}.

Definition set_stdout (v : string) (w : world) : world :=
  {| tty := tty w; orig_termios := orig_termios w; errno := errno w;
     atexit_handlers := atexit_handlers w; stdout := v;
     stderr := stderr w; tcgetattr_results := tcgetattr_results w;
     tcsetattr_results := tcsetattr_results w; stdin := stdin w;
     trace := trace w |}.

Definition set_stderr (v : list (string * Z)) (w : world) : world :=
  {| tty := tty w; orig_termios := orig_termios w; errno := errno w;
     atexit_handlers := atexit_handlers w; stdout := stdout w;
     stderr := v; tcgetattr_results := tcgetattr_results w;
     tcsetattr_results := tcsetattr_results w; stdin := stdin w;
     trace := trace w |}.

Definition set_tcgetattr_results (v : list sysret) (w : world) : world :=
  {| tty := tty w; orig_termios := orig_termios w; errno := errno w;
     atexit_handlers := atexit_handlers w; stdout := stdout w;
     stderr := stderr w; tcgetattr_results := v;
     tcsetattr_results := tcsetattr_results w; stdin := stdin w;
     trace := trace w |}.

Definition set_tcsetattr_results (v : list sysret) (w : world) : world :=
  {| tty := tty w; orig_termios := orig_termios w; errno := errno w;
     atexit_handlers := atexit_handlers w; stdout := stdout w;
     stderr := stderr w; tcgetattr_results := tcgetattr_results w;
     tcsetattr_results := v; stdin := stdin w;
     trace := trace w |}.

Definition set_stdin (v : list read_result) (w : world) : world :=
  {| tty := tty w; orig_termios := orig_termios w; errno := errno w;
     atexit_handlers := atexit_handlers w; stdout := stdout w;
     stderr := stderr w; tcgetattr_results := tcgetattr_results w;
     tcsetattr_results := tcsetattr_results w; stdin := v;
     trace := trace w |}.

Definition set_trace (v : list event) (w : world) : world :=
  {| tty := tty w; orig_termios := orig_termios w; errno := errno w;
     atexit_handlers := atexit_handlers w; stdout := stdout w;
     stderr := stderr w; tcgetattr_results := tcgetattr_results w;
     tcsetattr_results := tcsetattr_results w; stdin := stdin w;
     trace := v |}.

Definition log (e : event) (w : world) : world :=
  set_trace (trace w ++ [e]) w.

(** The outcome the next call of each kind will have. *)
Definition tcgetattr_next (w : world) : sysret := hd Success (tcgetattr_results w).
Definition tcsetattr_next (w : world) : sysret := hd Success (tcsetattr_results w).

(** ** The monad

    A C function either returns a value, or calls [exit] and does not
    return, or (in this model only) asks [read] for more than the script
    of [stdin] holds. *)

Inductive outcome (A : Type) :=
| Ret (a : A)
| Exit (status : Z)
| Blocked.
Arguments Ret {A} a.
Arguments Exit {A} status.
Arguments Blocked {A}.

Definition M (A : Type) : Type := world -> outcome A * world.

Definition ret {A} (a : A) : M A := fun w => (Ret a, w).

Definition bind {A B} (m : M A) (k : A -> M B) : M B :=
  fun w =>
    match m w with
    | (Ret a, w') => k a w'
    | (Exit s, w') => (Exit s, w')
    | (Blocked, w') => (Blocked, w')
    end.

Notation "'let*' x ':=' m 'in' k" := (bind m (fun x => k))
  (at level 10, x pattern, m at level 100, k at level 200).
Notation "m >> k" := (bind m (fun _ => k))
  (at level 90, right associativity).

Definition get {A} (f : world -> A) : M A := fun w => (Ret (f w), w).
Definition modify (f : world -> world) : M unit := fun w => (Ret tt, f w).

(** [if (b) stmt;] *)
Definition when (b : bool) (m : M unit) : M unit := if b then m else ret tt.

(** ** The library calls *)

Definition exit {A} (status : Z) : M A := fun w => (Exit status, w).

Definition perror (s : string) : M unit :=
  modify (fun w => set_stderr (stderr w ++ [(s, errno w)]) w).

(** [tcgetattr(STDIN_FILENO, p)]; [store] plays the pointer [p]. *)
Definition tcgetattr (store : termios -> world -> world) : M Z :=
  fun w =>
    let r := tcgetattr_next w in
    let w := set_tcgetattr_results (tl (tcgetattr_results w)) w in
    let w := log (Ev_tcgetattr r) w in
    match r with
    | Success => (Ret 0, store (tty w) w)
    | Failure e => (Ret (-1), set_errno e w)
    end.

(** [tcsetattr(STDIN_FILENO, TCSAFLUSH, &t)].  A call that succeeds
    installs [t] as a whole and a call that fails installs nothing.  What
    [TCSAFLUSH] discards is input that was pending before the call;
    [stdin] scripts what the later [read] calls deliver. *)
Definition tcsetattr (t : termios) : M Z :=
  fun w =>
    let r := tcsetattr_next w in
    let w := set_tcsetattr_results (tl (tcsetattr_results w)) w in
    let w := log (Ev_tcsetattr t r) w in
    match r with
    | Success => (Ret 0, set_tty t w)
    | Failure e => (Ret (-1), set_errno e w)
    end.

(** [atexit(f)].  Registration is taken to succeed; [enableRawMode]
    does not look at the result. *)
Definition atexit (h : handler) : M Z :=
  fun w => (Ret 0, log (Ev_atexit h) (set_atexit_handlers (h :: atexit_handlers w) w)).

(** [read(STDIN_FILENO, &c, 1)]: the return value and the content of [c]
    after the call. *)
Definition read (c : ascii) : M (Z * ascii) :=
  fun w =>
    match stdin w with
    | [] => (Blocked, w)
    | r :: rest =>
        let w := log (Ev_read r) (set_stdin rest w) in
        match r with
        | Read_byte b => (Ret (1, b), w)
        | Read_none => (Ret (0, c), w)
        | Read_error e => (Ret (-1, c), set_errno e w)
        end
    end.

Definition printf (s : string) : M unit :=
  modify (fun w => set_stdout (stdout w ++ s)%string w).

(** [iscntrl] in the "C" locale, the only one a program that never calls
    [setlocale] runs in. *)
Definition iscntrl (c : Z) : bool :=
  ((0 <=? c) && (c <=? 31)) || (c =? 127).

(** The conversion [%d]. *)
Definition fmt_d (z : Z) : string := NilZero.string_of_int (Z.to_int z).

(** The conversion [%c]: the argument converted to [unsigned char]. *)
Definition fmt_c (z : Z) : string :=
  String (ascii_of_N (Z.to_N (z mod 256))) EmptyString.

Definition CRLF : string := String "013"%char (String "010"%char EmptyString).

(** ** Vocabulary of the statements *)

(** The text the [if] of lines 160-164 prints for the value [v] of [c]. *)
Definition printed_line (v : Z) : string :=
  (if iscntrl v then fmt_d v ++ CRLF
   else fmt_d v ++ " ('" ++ fmt_c v ++ "')" ++ CRLF)%string.

(** Reading a decimal numeral back. *)
Definition parse_d (s : string) : option Z :=
  option_map Z.of_int (NilZero.int_of_string s).

(** [w'] differs from [w] only by [read] calls and what follows from
    them: terminal, snapshot, registry and the scripts of the terminal
    calls are the same, and the trace grew by the reads that consumed a
    prefix of [stdin]. *)
Definition only_reads (w w' : world) : Prop :=
  tty w' = tty w
  ∧ orig_termios w' = orig_termios w
  ∧ atexit_handlers w' = atexit_handlers w
  ∧ tcgetattr_results w' = tcgetattr_results w
  ∧ tcsetattr_results w' = tcsetattr_results w
  ∧ ∃ rs, trace w' = trace w ++ map Ev_read rs ∧ stdin w = rs ++ stdin w'.

Definition is_restore (e : event) : bool :=
  match e with
  | Ev_call_disableRawMode => true
  | _ => false
  end.

(** How many times [disableRawMode] was entered. *)
Definition restore_calls (tr : list event) : nat :=
  length (List.filter is_restore tr).

(** The reads issued, in order. *)
Definition reads_of (tr : list event) : list read_result :=
  flat_map (fun e => match e with Ev_read r => [r] | _ => [] end) tr.

(** The outcome of the [tcsetattr] of [disableRawMode] when the two calls
    of [enableRawMode] came first. *)
Definition restore_result (sets : list sysret) : sysret :=
  hd Success (tl sets).

(** A character a terminal shows as itself: ASCII 32 to 126. *)
Definition printable (a : ascii) : bool :=
  ((32 <=? N_of_ascii a) && (N_of_ascii a <=? 126))%N.

(** Every occurrence of [e'] in the trace has an [e] before it. *)
Definition preceded_by (e e' : event) (tr : list event) : Prop :=
  ∀ pre post, tr = pre ++ e' :: post → In e pre.

(** ** The program on a platform *)

Section Program.
Context {P : Platform}.

(** The zero-initialised object a global [struct termios] starts as. *)
Definition termios_zero : termios :=
  {| c_iflag := 0; c_oflag := 0; c_cflag := 0; c_lflag := 0; c_line := 0;
     c_cc := repeat 0 NCCS; c_ispeed := 0; c_ospeed := 0 |}.

(** *** Flag arithmetic

    The flag macros are [int] constants and the flag fields are
    [tcflag_t], an unsigned type of [tcflag_bits] bits: the right operand
    of [&=] and [|=] is converted to it, which wraps the negative [~(m)]
    around. *)

Definition to_tcflag (z : Z) : Z := z mod 2 ^ tcflag_bits.

(** [f &= ~(m)] *)
Definition and_not (f m : Z) : Z := Z.land f (to_tcflag (Z.lnot m)).

(** [f |= (m)] *)
Definition or_in (f m : Z) : Z := Z.lor f (to_tcflag m).

(** The local [raw] of [enableRawMode] once lines 70-107 have run, as a
    function of the value of [orig_termios] it is copied from.  The
    statements are applied in the order of the source; the three
    assignments of lines 94-96 all have [raw.c_iflag] on the left. *)
Definition raw_termios (orig : termios) : termios :=
  let raw := orig in
  let raw := set_c_iflag
               (and_not (c_iflag raw)
                  (Z.lor (Z.lor (Z.lor (Z.lor BRKINT ICRNL) INPCK) ISTRIP) IXON))
               raw in
  let raw := set_c_iflag (and_not (c_iflag raw) OPOST) raw in
  let raw := set_c_iflag (or_in (c_iflag raw) CS8) raw in
  let raw := set_c_lflag
               (and_not (c_lflag raw)
                  (Z.lor (Z.lor (Z.lor ECHO ICANON) IEXTEN) ISIG))
               raw in
  let raw := set_c_cc (<[VMIN := 0]> (c_cc raw)) raw in
  let raw := set_c_cc (<[VTIME := 1]> (c_cc raw)) raw in
  raw.

(** The value of a [char] holding the byte [c], promoted to [int]. *)
Definition char_to_int (c : ascii) : Z :=
  let n := Z.of_N (N_of_ascii c) in
  if char_signed && (128 <=? n) then n - 256 else n.

(** ** kilo.c *)

Definition die {A} (s : string) : M A :=
  perror s >> exit 1.

Definition disableRawMode : M unit :=
  modify (log Ev_call_disableRawMode) >>
  let* orig := get orig_termios in
  let* r := tcsetattr orig in
  when (r =? -1) (die "tcsetattr").

Definition call (h : handler) : M unit :=
  match h with
  | Handler_disableRawMode => disableRawMode
  end.

Definition enableRawMode : M unit :=
  let* r := tcgetattr set_orig_termios in
  when (r =? -1) (die "tcgetattr") >>
  atexit Handler_disableRawMode >>
  let* orig := get orig_termios in
  let raw := raw_termios orig in
  let* r := tcsetattr raw in
  when (r =? -1) (die "tcsetattr") >>
  modify (log Ev_return_enableRawMode).

(** One pass through the body of [while (1)]; the result tells whether
    the [break] was taken. *)
Definition loop_body : M bool :=
  let c := zero in
  let* (n, c) := read c in
  let* e := get errno in
  when ((n =? -1) && negb (e =? EAGAIN)) (die "read") >>
  (if iscntrl (char_to_int c)
   then printf (fmt_d (char_to_int c) ++ CRLF)%string
   else printf (fmt_d (char_to_int c) ++ " ('" ++ fmt_c (char_to_int c)
                  ++ "')" ++ CRLF)%string) >>
  ret (char_to_int c =? char_to_int "q"%char).

(** [while (1) { ... }], unrolled at most [fuel] times. *)
Fixpoint while_1 (fuel : nat) : M unit :=
  match fuel with
  | O => fun w => (Blocked, w)
  | S fuel =>
      let* stop := loop_body in
      if stop then ret tt else while_1 fuel
  end.

Definition main (fuel : nat) : M Z :=
  enableRawMode >>
  while_1 fuel >>
  ret 0.

(** ** Process start and exit *)

(** [exit] calls the registered functions, the most recently registered
    first.  A function that itself calls [exit] (here through [die])
    changes the status the process ends with and the remaining functions
    still run, as in glibc. *)
Fixpoint run_atexit (hs : list handler) (status : Z) (w : world) : Z * world :=
  match hs with
  | [] => (status, w)
  | h :: hs =>
      match call h (set_atexit_handlers hs w) with
      | (Exit status', w') => run_atexit hs status' w'
      | (_, w') => run_atexit hs status w'
      end
  end.

Inductive termination :=
| Exited (status : Z)
| Reading.   (* the script of stdin is used up and the loop goes on *)

(** Each pass of the loop issues one [read], so [S (length (stdin w))]
    passes use the script up. *)
Definition run (w : world) : termination * world :=
  match main (S (length (stdin w))) w with
  | (Ret status, w') | (Exit status, w') =>
      let (status', w'') := run_atexit (atexit_handlers w') status w' in
      (Exited status', w'')
  | (Blocked, w') => (Reading, w')
  end.

(** The state [main] is entered in. *)
Definition boot (tty0 : termios) (gets sets : list sysret)
    (input : list read_result) : world :=
  {| tty := tty0; orig_termios := termios_zero; errno := 0;
     atexit_handlers := []; stdout := ""; stderr := [];
     tcgetattr_results := gets; tcsetattr_results := sets;
     stdin := input; trace := [] |}.

(** ** Sequences of mode changes

    [restores k] calls [disableRawMode] [k] times in a row; a session
    enters raw mode and then restores, once or more; [sessions] runs one
    session after the other. *)

Fixpoint restores (k : nat) : M unit :=
  match k with
  | O => ret tt
  | S k => disableRawMode >> restores k
  end.

Fixpoint sessions (extra : list nat) : M unit :=
  match extra with
  | [] => ret tt
  | k :: extra => enableRawMode >> restores (S k) >> sessions extra
  end.

(** Any sequence of the two mode functions, called one after the
    other. *)
Inductive mode_op :=
| Enter      (* enableRawMode() *)
| Restore.   (* disableRawMode() *)

Definition do_op (o : mode_op) : M unit :=
  match o with
  | Enter => enableRawMode
  | Restore => disableRawMode
  end.

Fixpoint run_ops (ops : list mode_op) : M unit :=
  match ops with
  | [] => ret tt
  | o :: ops => do_op o >> run_ops ops
  end.

(** No entry is made while raw mode is on: every [Enter] has a [Restore]
    right after it. *)
Fixpoint no_reentry (ops : list mode_op) : bool :=
  match ops with
  | [] => true
  | Restore :: ops => no_reentry ops
  | Enter :: ops =>
      match ops with
      | Restore :: _ => no_reentry ops
      | _ => false
      end
  end.

(** ** The loop as a function of its input *)

(** How the pass that gets [r] from [read] ends: with the [break] taken
    or not (line 166), or in [die] (line 142). *)
Definition pass_end (r : read_result) : outcome bool :=
  match r with
  | Read_byte b => Ret (char_to_int b =? char_to_int "q"%char)
  | Read_none => Ret false
  | Read_error e => if e =? EAGAIN then Ret false else Exit 1
  end.

(** Whether that pass is the last one. *)
Definition stops (r : read_result) : bool :=
  match pass_end r with
  | Ret false => false
  | _ => true
  end.

(** What that pass prints. *)
Definition line_of (r : read_result) : string :=
  match pass_end r with
  | Ret _ =>
      match r with
      | Read_byte b => printed_line (char_to_int b)
      | _ => printed_line (char_to_int zero)
      end
  | _ => ""
  end.

(** What that pass sends to [perror]. *)
Definition report_of (r : read_result) : list (string * Z) :=
  match r, pass_end r with
  | Read_error e, Exit _ => [("read", e)]
  | _, _ => []
  end.

(** The reads the loop issues on [input]: the results up to and
    including the first at which it stops. *)
Fixpoint consumed (input : list read_result) : list read_result :=
  match input with
  | [] => []
  | r :: input => if stops r then [r] else r :: consumed input
  end.

(** How the loop ends on [input]. *)
Fixpoint loop_end (input : list read_result) : outcome unit :=
  match input with
  | [] => Blocked
  | r :: input =>
      match pass_end r with
      | Ret true => Ret tt
      | Ret false => loop_end input
      | Exit s => Exit s
      | Blocked => Blocked
      end
  end.

Definition lines (rs : list read_result) : string :=
  fold_right (fun r s => (line_of r ++ s)%string) "" rs.

Definition reports (rs : list read_result) : list (string * Z) :=
  flat_map report_of rs.

End Program.

(** ** Sample terminals

    The settings of a Linux pseudo-terminal under an interactive shell
    (as [stty -a] reports them: [icrnl ixon iutf8], [opost onlcr],
    [B38400 cs8 cread], the usual local flags), and the same line set to
    seven data bits. *)

Definition cooked : termios :=
  {| c_iflag := 0x4500; c_oflag := 0x5; c_cflag := 0xbf; c_lflag := 0x8a3b;
     c_line := 0;
     c_cc := [3; 28; 127; 21; 4; 0; 1; 0; 17; 19; 26; 0; 18; 15; 23; 22;
              0; 0; 0; 0; 0; 0; 0; 0; 0; 0; 0; 0; 0; 0; 0; 0];
     c_ispeed := 15; c_ospeed := 15 |}.

Definition cooked_cs7 : termios :=
  {| c_iflag := c_iflag cooked; c_oflag := c_oflag cooked; c_cflag := 0xaf;
     c_lflag := c_lflag cooked; c_line := c_line cooked; c_cc := c_cc cooked;
     c_ispeed := c_ispeed cooked; c_ospeed := c_ospeed cooked |}.

(** * Properties *)

Section Properties.
Context {P : Platform}.

Ltac exec :=
  unfold enableRawMode, disableRawMode, die, when, perror, exit, atexit,
    tcgetattr, tcsetattr, tcgetattr_next, tcsetattr_next, modify, get,
    bind, ret in *.

(** ** What [raw_termios] leaves alone *)

Lemma raw_termios_c_oflag t : c_oflag (raw_termios t) = c_oflag t.
Proof. reflexivity. Qed.

Lemma raw_termios_c_cflag t : c_cflag (raw_termios t) = c_cflag t.
Proof. reflexivity. Qed.

Lemma raw_termios_c_cc t (i : nat) :
  i ≠ VMIN → i ≠ VTIME → c_cc (raw_termios t) !! i = c_cc t !! i.
Proof.
  intros Hmin Htime. cbn.
  rewrite list_lookup_insert_ne by congruence.
  now rewrite list_lookup_insert_ne by congruence.
Qed.

Lemma raw_termios_c_cc_length t :
  length (c_cc (raw_termios t)) = length (c_cc t).
Proof. cbn. now rewrite !length_insert. Qed.

(** ** The two mode functions, call by call *)

Lemma disableRawMode_returns w w' :
  disableRawMode w = (Ret tt, w') →
  tcsetattr_next w = Success
  ∧ tty w' = orig_termios w
  ∧ orig_termios w' = orig_termios w
  ∧ atexit_handlers w' = atexit_handlers w
  ∧ tcgetattr_results w' = tcgetattr_results w
  ∧ tcsetattr_results w' = tl (tcsetattr_results w)
  ∧ trace w' = trace w ++ [Ev_call_disableRawMode;
                           Ev_tcsetattr (orig_termios w) Success].
Proof.
  exec. cbn.
  destruct (hd Success (tcsetattr_results w)); cbn; intros [= <-]; cbn.
  now rewrite <- app_assoc.
Qed.

Lemma disableRawMode_success w :
  tcsetattr_next w = Success → ∃ w', disableRawMode w = (Ret tt, w').
Proof.
  exec. cbn. intros ->. cbn. eauto.
Qed.

Lemma disableRawMode_failure w e :
  tcsetattr_next w = Failure e →
  ∃ w', disableRawMode w = (Exit 1, w')
        ∧ tty w' = tty w
        ∧ stderr w' = stderr w ++ [("tcsetattr", e)]
        ∧ trace w' = trace w ++ [Ev_call_disableRawMode;
                                 Ev_tcsetattr (orig_termios w) (Failure e)].
Proof.
  exec. cbn. intros ->. cbn.
  eexists. split; [reflexivity|]. cbn. now rewrite <- app_assoc.
Qed.

Lemma enableRawMode_returns w w' :
  enableRawMode w = (Ret tt, w') →
  tcgetattr_next w = Success
  ∧ tcsetattr_next w = Success
  ∧ orig_termios w' = tty w
  ∧ tty w' = raw_termios (tty w)
  ∧ atexit_handlers w' = Handler_disableRawMode :: atexit_handlers w
  ∧ tcgetattr_results w' = tl (tcgetattr_results w)
  ∧ tcsetattr_results w' = tl (tcsetattr_results w)
  ∧ stdin w' = stdin w
  ∧ stdout w' = stdout w
  ∧ trace w' = trace w ++ [Ev_tcgetattr Success;
                           Ev_atexit Handler_disableRawMode;
                           Ev_tcsetattr (raw_termios (tty w)) Success;
                           Ev_return_enableRawMode].
Proof.
  exec. cbn.
  destruct (hd Success (tcgetattr_results w)); cbn; [|intros [=]].
  destruct (hd Success (tcsetattr_results w)); cbn; intros [= <-]; cbn.
  now rewrite <- !app_assoc.
Qed.

Lemma enableRawMode_success w :
  tcgetattr_next w = Success → tcsetattr_next w = Success →
  ∃ w', enableRawMode w = (Ret tt, w').
Proof.
  exec. cbn.
  intros Hget Hset. rewrite Hget. cbn. rewrite Hset. cbn. eauto.
Qed.

Lemma bind_returns {A B} (m : M A) (k : A → M B) w b w' :
  bind m k w = (Ret b, w') →
  ∃ a w1, m w = (Ret a, w1) ∧ k a w1 = (Ret b, w').
Proof.
  unfold bind. destruct (m w) as [[a| |] w1]; [eauto | discriminate ..].
Qed.

(** C10. When [enableRawMode] returns, the configuration it has applied
    to the terminal differs from the snapshot in [orig_termios] (the
    configuration the terminal had) at most in [c_iflag], [c_lflag],
    [c_cc[VMIN]] and [c_cc[VTIME]]: [c_oflag] and [c_cflag], and every
    other field, are applied as they were captured. *)
Theorem enableRawMode_frame w w' :
  enableRawMode w = (Ret tt, w') →
  orig_termios w' = tty w
  ∧ c_oflag (tty w') = c_oflag (orig_termios w')
  ∧ c_cflag (tty w') = c_cflag (orig_termios w')
  ∧ c_line (tty w') = c_line (orig_termios w')
  ∧ c_ispeed (tty w') = c_ispeed (orig_termios w')
  ∧ c_ospeed (tty w') = c_ospeed (orig_termios w')
  ∧ length (c_cc (tty w')) = length (c_cc (orig_termios w'))
  ∧ ∀ i : nat, i ≠ VMIN → i ≠ VTIME →
      c_cc (tty w') !! i = c_cc (orig_termios w') !! i.
Proof.
  intros Hrun. apply enableRawMode_returns in Hrun.
  destruct Hrun as (_ & _ & Horig & Htty & _).
  rewrite Horig, Htty. repeat split.
  - apply raw_termios_c_cc_length.
  - apply raw_termios_c_cc.
Qed.

(** C7. [disableRawMode] is idempotent: a second call right after the
    first leaves the terminal in the configuration the first one left,
    and neither call changes [orig_termios]. *)
Theorem disableRawMode_idempotent w w1 w2 :
  disableRawMode w = (Ret tt, w1) →
  disableRawMode w1 = (Ret tt, w2) →
  tty w2 = tty w1
  ∧ orig_termios w1 = orig_termios w
  ∧ orig_termios w2 = orig_termios w.
Proof.
  intros H1 H2.
  apply disableRawMode_returns in H1. destruct H1 as (_ & Ht1 & Ho1 & _).
  apply disableRawMode_returns in H2. destruct H2 as (_ & Ht2 & Ho2 & _).
  repeat split; congruence.
Qed.

(** ** Sessions *)

Lemma restores_returns k w w' :
  restores k w = (Ret tt, w') →
  orig_termios w' = orig_termios w
  ∧ tty w' = match k with O => tty w | S _ => orig_termios w end.
Proof.
  revert w. induction k as [|k IH]; intros w; cbn [restores].
  - now intros [= <-].
  - intros Hrun. apply bind_returns in Hrun.
    destruct Hrun as ([] & w1 & Hfirst & Hrest).
    apply disableRawMode_returns in Hfirst.
    destruct Hfirst as (_ & Ht & Ho & _).
    apply IH in Hrest. destruct Hrest as [Ho' Ht'].
    split; [congruence|]. destruct k; congruence.
Qed.

Lemma sessions_returns extra w w' :
  sessions extra w = (Ret tt, w') →
  match extra with
  | [] => w' = w
  | _ :: _ => tty w' = tty w ∧ orig_termios w' = tty w
  end.
Proof.
  revert w. induction extra as [|k extra IH]; intros w; cbn [sessions].
  - now intros [= <-].
  - intros Hrun. apply bind_returns in Hrun.
    destruct Hrun as ([] & w1 & Henter & Hrun).
    apply bind_returns in Hrun.
    destruct Hrun as ([] & w2 & Hrestore & Hrest).
    apply enableRawMode_returns in Henter.
    destruct Henter as (_ & _ & Ho1 & _).
    apply restores_returns in Hrestore. destruct Hrestore as [Ho2 Ht2].
    assert (tty w2 = tty w ∧ orig_termios w2 = tty w) as [Ht Ho]
      by (split; congruence).
    apply IH in Hrest. destruct extra.
    + now subst.
    + destruct Hrest. split; congruence.
Qed.

Lemma Forall_success_hd (l : list sysret) :
  Forall (eq Success) l → hd Success l = Success.
Proof. now destruct 1. Qed.

Lemma Forall_success_tl (l : list sysret) :
  Forall (eq Success) l → Forall (eq Success) (tl l).
Proof. destruct 1; [constructor | assumption]. Qed.

Lemma restores_succeed k w :
  Forall (eq Success) (tcsetattr_results w) →
  ∃ w', restores k w = (Ret tt, w')
        ∧ tcgetattr_results w' = tcgetattr_results w
        ∧ Forall (eq Success) (tcsetattr_results w').
Proof.
  revert w. induction k as [|k IH]; intros w Hsets; cbn [restores].
  - now exists w.
  - destruct (disableRawMode_success w) as [w1 H1];
      [now apply Forall_success_hd|].
    pose proof (disableRawMode_returns _ _ H1) as (_ & _ & _ & _ & Hg & Hs & _).
    destruct (IH w1) as (w' & Hrun & Hg' & Hs').
    { rewrite Hs. now apply Forall_success_tl. }
    exists w'. unfold bind. rewrite H1. repeat split; congruence.
Qed.

(** While every call on the terminal succeeds, any number of sessions
    runs to the end. *)
Lemma sessions_succeed extra w :
  Forall (eq Success) (tcgetattr_results w) →
  Forall (eq Success) (tcsetattr_results w) →
  ∃ w', sessions extra w = (Ret tt, w').
Proof.
  revert w. induction extra as [|k extra IH]; intros w Hgets Hsets;
    cbn [sessions].
  - now exists w.
  - destruct (enableRawMode_success w) as [w1 H1];
      [now apply Forall_success_hd ..|].
    pose proof (enableRawMode_returns _ _ H1)
      as (_ & _ & _ & _ & _ & Hg & Hs & _).
    destruct (restores_succeed (S k) w1) as (w2 & H2 & Hg2 & Hs2).
    { rewrite Hs. now apply Forall_success_tl. }
    destruct (IH w2) as [w' H']; [|assumption|].
    { rewrite Hg2, Hg. now apply Forall_success_tl. }
    exists w'. unfold bind at 1. rewrite H1.
    unfold bind at 1. now rewrite H2.
Qed.

(** Fidelity over sessions: if a non-empty sequence of sessions runs to
    the end, the terminal is in the configuration it had before the
    first entry, and that configuration is what [orig_termios] holds. *)
Theorem restoration_fidelity extra w w' :
  extra ≠ [] →
  sessions extra w = (Ret tt, w') →
  tty w' = tty w ∧ orig_termios w' = tty w.
Proof.
  intros Hne Hrun. apply sessions_returns in Hrun.
  destruct extra; [contradiction | assumption].
Qed.

(** ** The loop, pass by pass *)

Lemma char_to_int_7bit c :
  (N_of_ascii c < 128)%N → char_to_int c = Z.of_N (N_of_ascii c).
Proof.
  intros Hlt. unfold char_to_int.
  replace (128 <=? Z.of_N (N_of_ascii c)) with false
    by (symmetry; apply Z.leb_gt; lia).
  now rewrite andb_false_r.
Qed.

Lemma char_to_int_zero : char_to_int zero = 0.
Proof. now rewrite char_to_int_7bit. Qed.

Lemma char_to_int_q : char_to_int "q"%char = 113.
Proof. now rewrite char_to_int_7bit. Qed.

Lemma loop_body_byte w b rest :
  stdin w = Read_byte b :: rest →
  loop_body w =
    (Ret (char_to_int b =? 113),
     set_stdout (stdout w ++ printed_line (char_to_int b))%string
       (log (Ev_read (Read_byte b)) (set_stdin rest w))).
Proof.
  intros Hin. unfold loop_body, read, bind. rewrite Hin. cbn.
  rewrite char_to_int_q. unfold printed_line.
  now destruct (iscntrl (char_to_int b)).
Qed.

Lemma loop_body_none w rest :
  stdin w = Read_none :: rest →
  loop_body w =
    (Ret false,
     set_stdout (stdout w ++ "0" ++ CRLF)%string
       (log (Ev_read Read_none) (set_stdin rest w))).
Proof.
  intros Hin. unfold loop_body, read, bind. rewrite Hin. cbn.
  rewrite char_to_int_q, char_to_int_zero. reflexivity.
Qed.

Lemma loop_body_EAGAIN w rest :
  stdin w = Read_error EAGAIN :: rest →
  loop_body w =
    (Ret false,
     set_stdout (stdout w ++ "0" ++ CRLF)%string
       (set_errno EAGAIN (log (Ev_read (Read_error EAGAIN)) (set_stdin rest w)))).
Proof.
  intros Hin. unfold loop_body, read, bind. rewrite Hin. cbn.
  rewrite Z.eqb_refl. cbn.
  rewrite char_to_int_q, char_to_int_zero. reflexivity.
Qed.

Lemma loop_body_fatal w e rest :
  stdin w = Read_error e :: rest →
  e ≠ EAGAIN →
  loop_body w =
    (Exit 1,
     set_stderr (stderr w ++ [("read", e)])
       (set_errno e (log (Ev_read (Read_error e)) (set_stdin rest w)))).
Proof.
  intros Hin Hne. unfold loop_body, read, bind. rewrite Hin. cbn.
  apply Z.eqb_neq in Hne. rewrite Hne. reflexivity.
Qed.

Lemma loop_body_blocked w :
  stdin w = [] → loop_body w = (Blocked, w).
Proof.
  intros Hin. unfold loop_body, read, bind. now rewrite Hin.
Qed.

Lemma while_1_S fuel w :
  while_1 (S fuel) w =
    match loop_body w with
    | (Ret true, w') => (Ret tt, w')
    | (Ret false, w') => while_1 fuel w'
    | (Exit s, w') => (Exit s, w')
    | (Blocked, w') => (Blocked, w')
    end.
Proof.
  cbn [while_1]. unfold bind.
  now destruct (loop_body w) as [[[]| |] w'].
Qed.

Lemma only_reads_refl w : only_reads w w.
Proof.
  unfold only_reads. repeat split. exists []. cbn. now rewrite app_nil_r.
Qed.

Lemma only_reads_trans w1 w2 w3 :
  only_reads w1 w2 → only_reads w2 w3 → only_reads w1 w3.
Proof.
  intros (Ht & Ho & Ha & Hg & Hs & rs & Htr & Hin)
         (Ht' & Ho' & Ha' & Hg' & Hs' & rs' & Htr' & Hin').
  unfold only_reads. repeat split; try congruence.
  exists (rs ++ rs'). rewrite Htr', Htr, Hin, Hin', map_app.
  now rewrite !app_assoc.
Qed.

Lemma loop_body_only_reads w o w' :
  loop_body w = (o, w') → only_reads w w'.
Proof.
  destruct (stdin w) as [|[b| |e] rest] eqn:Hin.
  - rewrite (loop_body_blocked _ Hin). intros [= _ <-]. apply only_reads_refl.
  - rewrite (loop_body_byte _ _ _ Hin). intros [= _ <-].
    unfold only_reads. cbn. repeat split. now exists [Read_byte b].
  - rewrite (loop_body_none _ _ Hin). intros [= _ <-].
    unfold only_reads. cbn. repeat split. now exists [Read_none].
  - destruct (Z.eq_dec e EAGAIN) as [->|Hne].
    + rewrite (loop_body_EAGAIN _ _ Hin). intros [= _ <-].
      unfold only_reads. cbn. repeat split. now exists [Read_error EAGAIN].
    + rewrite (loop_body_fatal _ _ _ Hin Hne). intros [= _ <-].
      unfold only_reads. cbn. repeat split. now exists [Read_error e].
Qed.

Lemma while_1_only_reads fuel w o w' :
  while_1 fuel w = (o, w') → only_reads w w'.
Proof.
  revert w. induction fuel as [|fuel IH]; intros w.
  - cbn. intros [= _ <-]. apply only_reads_refl.
  - rewrite while_1_S.
    destruct (loop_body w) as [[[]| |] w1] eqn:Hbody;
      apply loop_body_only_reads in Hbody.
    + now intros [= _ <-].
    + intros Hrest. eapply only_reads_trans; eauto.
    + now intros [= _ <-].
    + now intros [= _ <-].
Qed.

(** The fuel of [run] is enough: more of it changes nothing. *)
Lemma while_1_fuel fuel fuel' w :
  (length (stdin w) < fuel)%nat → (length (stdin w) < fuel')%nat →
  while_1 fuel w = while_1 fuel' w.
Proof.
  revert fuel' w. induction fuel as [|fuel IH]; intros fuel' w Hlt Hlt';
    [lia|].
  destruct fuel' as [|fuel']; [lia|].
  rewrite !while_1_S.
  destruct (stdin w) as [|[b| |e] rest] eqn:Hin; cbn [length] in *.
  - now rewrite (loop_body_blocked _ Hin).
  - rewrite (loop_body_byte _ _ _ Hin).
    destruct (char_to_int b =? 113); [reflexivity|]. apply IH; cbn; lia.
  - rewrite (loop_body_none _ _ Hin). apply IH; cbn; lia.
  - destruct (Z.eq_dec e EAGAIN) as [->|Hne].
    + rewrite (loop_body_EAGAIN _ _ Hin). apply IH; cbn; lia.
    + now rewrite (loop_body_fatal _ _ _ Hin Hne).
Qed.

(** With that fuel the loop stops waiting only when the script is used up. *)
Lemma while_1_blocked fuel w w' :
  (length (stdin w) < fuel)%nat →
  while_1 fuel w = (Blocked, w') → stdin w' = [].
Proof.
  revert w. induction fuel as [|fuel IH]; intros w Hlt; [lia|].
  rewrite while_1_S.
  destruct (stdin w) as [|[b| |e] rest] eqn:Hin; cbn [length] in *.
  - rewrite (loop_body_blocked _ Hin). now intros [= <-].
  - rewrite (loop_body_byte _ _ _ Hin).
    destruct (char_to_int b =? 113); [discriminate|]. apply IH; cbn; lia.
  - rewrite (loop_body_none _ _ Hin). apply IH; cbn; lia.
  - destruct (Z.eq_dec e EAGAIN) as [->|Hne].
    + rewrite (loop_body_EAGAIN _ _ Hin). apply IH; cbn; lia.
    + now rewrite (loop_body_fatal _ _ _ Hin Hne).
Qed.

(** C2 (amended). A pass whose [read] delivers no byte is not an error
    and does not stop the loop, which goes on with the next pass; the
    pass consumes that read and prints the line of the value 0 that [c]
    was initialised to, ["0\r\n"], and changes nothing else. *)
Theorem zero_byte_pass w rest fuel :
  stdin w = Read_none :: rest →
  let w' := set_stdout (stdout w ++ "0" ++ CRLF)%string
              (log (Ev_read Read_none) (set_stdin rest w)) in
  loop_body w = (Ret false, w')
  ∧ while_1 (S fuel) w = while_1 fuel w'
  ∧ stderr w' = stderr w
  ∧ errno w' = errno w
  ∧ only_reads w w'.
Proof.
  intros Hin w'. pose proof (loop_body_none _ _ Hin) as Hbody.
  fold w' in Hbody.
  split; [assumption|].
  split; [now rewrite while_1_S, Hbody|].
  split; [reflexivity|].
  split; [reflexivity|].
  now apply loop_body_only_reads in Hbody.
Qed.

(** C3 (amended). A [read] that fails with [EAGAIN] is not fatal: nothing
    goes to the error stream and the loop goes on.  A [read] that fails
    with any other [errno], [EINTR] included, is fatal: [die("read")]
    reports it and the process leaves with status 1. *)
Theorem read_failure_policy w e rest :
  stdin w = Read_error e :: rest →
  (e = EAGAIN →
     ∃ w', loop_body w = (Ret false, w') ∧ stderr w' = stderr w
           ∧ ∀ fuel, while_1 (S fuel) w = while_1 fuel w')
  ∧ (e ≠ EAGAIN →
     ∃ w', loop_body w = (Exit 1, w')
           ∧ stderr w' = stderr w ++ [("read", e)]
           ∧ ∀ fuel, while_1 (S fuel) w = (Exit 1, w')).
Proof.
  intros Hin. split.
  - intros ->. eexists. split; [apply (loop_body_EAGAIN _ _ Hin)|].
    split; [reflexivity|]. intros fuel.
    now rewrite while_1_S, (loop_body_EAGAIN _ _ Hin).
  - intros Hne. eexists. split; [apply (loop_body_fatal _ _ _ Hin Hne)|].
    split; [reflexivity|]. intros fuel.
    now rewrite while_1_S, (loop_body_fatal _ _ _ Hin Hne).
Qed.

(** ** The printed line *)

Lemma fmt_d_parse z : parse_d (fmt_d z) = Some z.
Proof.
  unfold parse_d, fmt_d. rewrite NilZero.isi.
  - cbn. now rewrite DecimalZ.of_to.
  - destruct z; cbn; try discriminate.
    intros [= Hnil]. now apply Unsigned.to_uint_nonnil in Hnil.
  - destruct z; cbn; try discriminate.
    intros [= Hnil]. now apply Unsigned.to_uint_nonnil in Hnil.
Qed.

Lemma N_of_ascii_lt_256 b : (N_of_ascii b < 256)%N.
Proof. apply N_ascii_bounded. Qed.

Lemma char_to_int_mod b : char_to_int b mod 256 = Z.of_N (N_of_ascii b).
Proof.
  pose proof (N_of_ascii_lt_256 b) as Hlt. unfold char_to_int.
  destruct (char_signed && (128 <=? Z.of_N (N_of_ascii b))).
  - replace (Z.of_N (N_of_ascii b) - 256)
      with (Z.of_N (N_of_ascii b) + (-1) * 256) by lia.
    rewrite Z.mod_add by lia. apply Z.mod_small. lia.
  - apply Z.mod_small. lia.
Qed.

Lemma fmt_c_char b : fmt_c (char_to_int b) = String b EmptyString.
Proof.
  unfold fmt_c. now rewrite char_to_int_mod, N2Z.id, ascii_N_embedding.
Qed.

Lemma iscntrl_char b :
  iscntrl (char_to_int b) = true
  ↔ (N_of_ascii b <= 31)%N ∨ N_of_ascii b = 127%N.
Proof.
  pose proof (N_of_ascii_lt_256 b) as Hlt.
  unfold iscntrl, char_to_int.
  destruct char_signed; cbn [andb];
    [destruct (Z.leb_spec 128 (Z.of_N (N_of_ascii b)))|];
    rewrite orb_true_iff, andb_true_iff, !Z.leb_le, Z.eqb_eq; lia.
Qed.

(** C9 (amended). For a byte [b] of value [n] that [read] delivers, the
    pass prints one line, ended by carriage return and line feed.  When
    [b] is a control byte ([n] from 0 to 31, or 127) the line holds only
    the decimal numeral of [n].  Otherwise it holds a decimal numeral
    and the byte itself between [ ('] and [')]; the numeral is that of
    [n] when [n] is below 128 or [char] is unsigned, and that of
    [n - 256] when [n] is 128 or more and [char] is signed. *)
Theorem byte_classification w b rest :
  stdin w = Read_byte b :: rest →
  let n := Z.of_N (N_of_ascii b) in
  let v := if char_signed && (128 <=? n) then n - 256 else n in
  ∃ stop w',
    loop_body w = (Ret stop, w')
    ∧ stdout w' =
        (stdout w ++
         (if ((n <=? 31)%Z || (n =? 127)%Z)%bool then fmt_d n ++ CRLF
          else fmt_d v ++ " ('" ++ String b "" ++ "')" ++ CRLF))%string
    ∧ parse_d (fmt_d n) = Some n
    ∧ parse_d (fmt_d v) = Some v.
Proof.
  intros Hin n v. do 2 eexists.
  split; [apply (loop_body_byte _ _ _ Hin)|].
  split; [|split; apply fmt_d_parse].
  cbn [stdout set_stdout]. f_equal. unfold printed_line.
  rewrite fmt_c_char. pose proof (iscntrl_char b) as Hcntrl.
  destruct ((n <=? 31) || (n =? 127)) eqn:Hn.
  - apply orb_true_iff in Hn. rewrite Z.leb_le, Z.eqb_eq in Hn.
    assert (Hb : (N_of_ascii b <= 31)%N ∨ N_of_ascii b = 127%N)
      by (unfold n in Hn; lia).
    rewrite (proj2 Hcntrl Hb), char_to_int_7bit by lia. reflexivity.
  - destruct (iscntrl (char_to_int b)) eqn:Hi; [|reflexivity].
    destruct (proj1 Hcntrl eq_refl) as [Hb|Hb];
      apply orb_false_iff in Hn; rewrite Z.leb_gt, Z.eqb_neq in Hn;
      unfold n in Hn; lia.
Qed.

(** ** The whole process *)

Lemma enableRawMode_tcgetattr_fails w e :
  tcgetattr_next w = Failure e →
  ∃ w', enableRawMode w = (Exit 1, w')
        ∧ atexit_handlers w' = atexit_handlers w
        ∧ tty w' = tty w
        ∧ stderr w' = stderr w ++ [("tcgetattr", e)]
        ∧ trace w' = trace w ++ [Ev_tcgetattr (Failure e)].
Proof.
  exec. cbn. intros ->. cbn. eexists. split; [reflexivity|]. now cbn.
Qed.

Lemma enableRawMode_tcsetattr_fails w e :
  tcgetattr_next w = Success →
  tcsetattr_next w = Failure e →
  ∃ w', enableRawMode w = (Exit 1, w')
        ∧ atexit_handlers w' = Handler_disableRawMode :: atexit_handlers w
        ∧ tty w' = tty w
        ∧ orig_termios w' = tty w
        ∧ tcsetattr_results w' = tl (tcsetattr_results w)
        ∧ stderr w' = stderr w ++ [("tcsetattr", e)]
        ∧ trace w' = trace w ++ [Ev_tcgetattr Success;
                                 Ev_atexit Handler_disableRawMode;
                                 Ev_tcsetattr (raw_termios (tty w)) (Failure e)].
Proof.
  exec. cbn. intros Hget Hset. rewrite Hget. cbn. rewrite Hset. cbn.
  eexists. split; [reflexivity|]. cbn. now rewrite <- !app_assoc.
Qed.

(** What [exit] does when [disableRawMode] is the one registered
    function. *)
Lemma run_atexit_disableRawMode status w :
  ∃ w',
    run_atexit [Handler_disableRawMode] status w =
      (match tcsetattr_next w with Success => status | Failure _ => 1 end, w')
    ∧ tty w' = match tcsetattr_next w with
               | Success => orig_termios w
               | Failure _ => tty w
               end
    ∧ stdout w' = stdout w
    ∧ stdin w' = stdin w
    ∧ stderr w' = match tcsetattr_next w with
                  | Success => stderr w
                  | Failure e => stderr w ++ [("tcsetattr", e)]
                  end
    ∧ trace w' = trace w ++ [Ev_call_disableRawMode;
                             Ev_tcsetattr (orig_termios w) (tcsetattr_next w)].
Proof.
  cbn [run_atexit call]. exec. cbn.
  destruct (hd Success (tcsetattr_results w)); cbn;
    (eexists; split; [reflexivity|]); cbn; now rewrite <- app_assoc.
Qed.

Lemma main_unfold fuel w :
  main fuel w =
    match enableRawMode w with
    | (Ret _, w1) =>
        match while_1 fuel w1 with
        | (Ret _, w2) => (Ret 0, w2)
        | (Exit s, w2) => (Exit s, w2)
        | (Blocked, w2) => (Blocked, w2)
        end
    | (Exit s, w1) => (Exit s, w1)
    | (Blocked, w1) => (Blocked, w1)
    end.
Proof.
  unfold main, bind, ret.
  now destruct (enableRawMode w) as [[[]| |] w1].
Qed.

Lemma while_1_byte fuel w b rest :
  stdin w = Read_byte b :: rest →
  (N_of_ascii b < 128)%N →
  while_1 (S fuel) w =
    let w' := set_stdout (stdout w ++ printed_line (Z.of_N (N_of_ascii b)))%string
                (log (Ev_read (Read_byte b)) (set_stdin rest w)) in
    if Z.of_N (N_of_ascii b) =? 113 then (Ret tt, w') else while_1 fuel w'.
Proof.
  intros Hin Hlt. rewrite while_1_S, (loop_body_byte _ _ _ Hin).
  rewrite (char_to_int_7bit b Hlt). cbv zeta.
  now destruct (Z.of_N (N_of_ascii b) =? 113).
Qed.

(** C8. On the input ["a"], ["b"], ["q"], with the terminal calls
    succeeding, the process prints the line of ["a"], then the line of
    ["b"], then the line of ["q"], issues exactly these three reads
    whatever input follows, and exits with status 0 (with nothing on the
    error stream and the terminal as it was found). *)
Theorem run_a_b_q tty0 gets sets rest :
  hd Success gets = Success →
  hd Success sets = Success →
  hd Success (tl sets) = Success →
  ∃ w,
    run (boot tty0 gets sets
           (Read_byte "a" :: Read_byte "b" :: Read_byte "q" :: rest))
      = (Exited 0, w)
    ∧ stdout w = ("97 ('a')" ++ CRLF ++ "98 ('b')" ++ CRLF
                  ++ "113 ('q')" ++ CRLF)%string
    ∧ stdin w = rest
    ∧ reads_of (trace w) = [Read_byte "a"; Read_byte "b"; Read_byte "q"]
    ∧ stderr w = []
    ∧ tty w = tty0.
Proof.
  intros Hget Hset1 Hset2.
  set (w0 := boot tty0 gets sets
               (Read_byte "a" :: Read_byte "b" :: Read_byte "q" :: rest)).
  destruct (enableRawMode_success w0 Hget Hset1) as [w1 Henter].
  pose proof (enableRawMode_returns _ _ Henter)
    as (_ & _ & Ho1 & Ht1 & Ha1 & _ & Hs1 & Hin1 & Hout1 & Htr1).
  assert (Herr1 : stderr w1 = []).
  { revert Henter. exec. cbn. rewrite Hget. cbn. rewrite Hset1. cbn.
    now intros [= <-]. }
  unfold run. rewrite main_unfold, Henter. cbn [stdin w0 boot length].
  rewrite (while_1_byte _ _ "a" _ Hin1) by (cbn; lia).
  change (Z.of_N (N_of_ascii "a") =? 113) with false. cbv iota zeta.
  change (printed_line (Z.of_N (N_of_ascii "a")))
    with ("97 ('a')" ++ CRLF)%string.
  set (w2 := set_stdout _ _).
  rewrite (while_1_byte _ w2 "b" (Read_byte "q" :: rest) eq_refl)
    by (cbn; lia).
  change (Z.of_N (N_of_ascii "b") =? 113) with false. cbv iota zeta.
  change (printed_line (Z.of_N (N_of_ascii "b")))
    with ("98 ('b')" ++ CRLF)%string.
  set (w3 := set_stdout _ _).
  rewrite (while_1_byte _ w3 "q" rest eq_refl) by (cbn; lia).
  change (Z.of_N (N_of_ascii "q") =? 113) with true. cbv iota zeta.
  change (printed_line (Z.of_N (N_of_ascii "q")))
    with ("113 ('q')" ++ CRLF)%string.
  set (w4 := set_stdout _ _).
  change (atexit_handlers w4) with (atexit_handlers w1). rewrite Ha1.
  destruct (run_atexit_disableRawMode 0 w4)
    as (w5 & Hexit & Ht5 & Hout5 & Hin5 & Herr5 & Htr5).
  change (tcsetattr_next w4) with (hd Success (tcsetattr_results w1)) in *.
  change (orig_termios w4) with (orig_termios w1) in *.
  rewrite Hs1 in *. cbn [tcsetattr_results w0 boot] in *.
  rewrite Hset2 in *. cbn [atexit_handlers w0 boot]. rewrite Hexit.
  exists w5. split; [reflexivity|].
  split. { rewrite Hout5. cbn. rewrite Hout1. reflexivity. }
  split. { now rewrite Hin5. }
  split. { rewrite Htr5. cbn. rewrite Htr1. reflexivity. }
  split. { rewrite Herr5. exact Herr1. }
  now rewrite Ht5, Ho1.
Qed.

(** ** When the restoration runs *)

Lemma restore_calls_app a b :
  restore_calls (a ++ b) = (restore_calls a + restore_calls b)%nat.
Proof. unfold restore_calls. now rewrite List.filter_app, length_app. Qed.

Lemma restore_calls_reads rs : restore_calls (map Ev_read rs) = 0%nat.
Proof. induction rs; [reflexivity | assumption]. Qed.

Lemma preceded_by_absent e e' tr : ¬ In e' tr → preceded_by e e' tr.
Proof.
  intros Hout pre post ->. exfalso. apply Hout.
  apply in_or_app. right. now left.
Qed.

Lemma preceded_by_prefix e e' a b :
  In e a → ¬ In e' a → preceded_by e e' (a ++ b).
Proof.
  intros Hin Hout pre post Heq.
  apply app_eq_app in Heq. destruct Heq as (l & [[-> Hb]|[-> Hb]]).
  - destruct l as [|x l]; cbn in Hb.
    + now rewrite app_nil_r in Hin.
    + injection Hb as -> _. exfalso. apply Hout.
      apply in_or_app. right. now left.
  - apply in_or_app. now left.
Qed.

(** The three ways [run] can go, by the outcome of the two terminal calls
    of [enableRawMode], with the trace of each. *)
Lemma run_cases w :
  atexit_handlers w = [] →
  match tcgetattr_next w, tcsetattr_next w with
  | Failure e, _ =>
      ∃ w', run w = (Exited 1, w')
            ∧ trace w' = trace w ++ [Ev_tcgetattr (Failure e)]
  | Success, Failure e =>
      ∃ w' r, run w = (Exited 1, w')
            ∧ trace w' = trace w ++
                [Ev_tcgetattr Success; Ev_atexit Handler_disableRawMode;
                 Ev_tcsetattr (raw_termios (tty w)) (Failure e)]
                ++ [Ev_call_disableRawMode; Ev_tcsetattr (tty w) r]
  | Success, Success =>
      ∃ t w' rs,
        run w = (t, w')
        ∧ trace w' = trace w ++
            ([Ev_tcgetattr Success; Ev_atexit Handler_disableRawMode;
              Ev_tcsetattr (raw_termios (tty w)) Success;
              Ev_return_enableRawMode] ++ map Ev_read rs)
            ++ match t with
               | Exited _ =>
                   [Ev_call_disableRawMode;
                    Ev_tcsetattr (tty w) (hd Success (tl (tcsetattr_results w)))]
               | Reading => []
               end
  end.
Proof.
  intros Hnone. unfold run. rewrite main_unfold.
  destruct (tcgetattr_next w) as [|e] eqn:Hget.
  2:{ destruct (enableRawMode_tcgetattr_fails _ _ Hget)
        as (w1 & -> & Ha & _ & _ & Htr).
      rewrite Ha, Hnone. cbn. eauto. }
  destruct (tcsetattr_next w) as [|e] eqn:Hset.
  2:{ destruct (enableRawMode_tcsetattr_fails _ _ Hget Hset)
        as (w1 & -> & Ha & _ & Ho & _ & _ & Htr).
      rewrite Ha, Hnone.
      destruct (run_atexit_disableRawMode 1 w1) as (w2 & -> & _ & _ & _ & _ & Htr2).
      exists w2, (tcsetattr_next w1). split.
      - now destruct (tcsetattr_next w1).
      - rewrite Htr2, Htr, Ho. now rewrite <- !app_assoc. }
  destruct (enableRawMode_success _ Hget Hset) as [w1 Henter].
  rewrite Henter.
  pose proof (enableRawMode_returns _ _ Henter)
    as (_ & _ & Ho & _ & Ha & _ & Hs & _ & _ & Htr).
  destruct (while_1 _ w1) as [o w2] eqn:Hloop.
  pose proof (while_1_only_reads _ _ _ _ Hloop)
    as (_ & Ho2 & Ha2 & _ & Hs2 & rs & Htr2 & _).
  assert (Hexit : ∀ status, ∃ status' w3,
            (let (status', w'') := run_atexit (atexit_handlers w2) status w2 in
             (Exited status', w'')) = (Exited status', w3)
            ∧ trace w3 = trace w ++
                ([Ev_tcgetattr Success; Ev_atexit Handler_disableRawMode;
                  Ev_tcsetattr (raw_termios (tty w)) Success;
                  Ev_return_enableRawMode] ++ map Ev_read rs)
                ++ [Ev_call_disableRawMode;
                    Ev_tcsetattr (tty w) (hd Success (tl (tcsetattr_results w)))]).
  { intros status. rewrite Ha2, Ha, Hnone.
    destruct (run_atexit_disableRawMode status w2)
      as (w3 & -> & _ & _ & _ & _ & Htr3).
    do 2 eexists. split; [reflexivity|].
    rewrite Htr3, Htr2, Htr, Ho2, Ho. unfold tcsetattr_next.
    rewrite Hs2, Hs. now rewrite <- !app_assoc. }
  destruct o as [status|status|].
  - destruct (Hexit 0) as (s' & w3 & -> & Htr3). now exists (Exited s'), w3, rs.
  - destruct (Hexit status) as (s' & w3 & -> & Htr3).
    now exists (Exited s'), w3, rs.
  - exists Reading, w2, rs. split; [reflexivity|].
    rewrite Htr2, Htr. now rewrite app_nil_r, <- !app_assoc.
Qed.

Ltac in_trace :=
  repeat match goal with
  | |- ¬ _ => intros ?
  | H : In _ (_ ++ _) |- _ => apply in_app_or in H; destruct H
  | H : In _ (map Ev_read _) |- _ =>
      apply in_map_iff in H; destruct H as (? & ? & _); discriminate
  | H : In _ (_ :: _) |- _ => destruct H as [?|?]; [discriminate|]
  | H : In _ [] |- _ => destruct H
  end.

(** C4 (amended). In every run, [disableRawMode] is entered only after
    [tcgetattr] has filled [orig_termios] and [atexit] has registered it.
    It is entered exactly once when the process exits after a successful
    [tcgetattr] (also when the [tcsetattr] of [enableRawMode] fails, where
    [enableRawMode] never returns), and not at all when [tcgetattr] fails
    or while the process is still reading.  Where [enableRawMode] did
    return, the restoration comes after that return. *)
Theorem restore_once_after_capture tty0 gets sets input :
  let (t, w) := run (boot tty0 gets sets input) in
  preceded_by (Ev_tcgetattr Success) Ev_call_disableRawMode (trace w)
  ∧ preceded_by (Ev_atexit Handler_disableRawMode) Ev_call_disableRawMode
      (trace w)
  ∧ restore_calls (trace w) =
      match t, hd Success gets with
      | Exited _, Success => 1%nat
      | _, _ => 0%nat
      end
  ∧ (In Ev_return_enableRawMode (trace w) →
     preceded_by Ev_return_enableRawMode Ev_call_disableRawMode (trace w)).
Proof.
  pose proof (run_cases (boot tty0 gets sets input) eq_refl) as Hrun.
  unfold tcgetattr_next, tcsetattr_next in Hrun.
  cbn [boot tcgetattr_results tcsetattr_results trace tty] in Hrun.
  destruct (hd Success gets) as [|e].
  2:{ destruct Hrun as (w & -> & ->). cbn [app].
      repeat split; try (apply preceded_by_absent; in_trace).
      intros Hin. in_trace. }
  destruct (hd Success sets) as [|e].
  2:{ destruct Hrun as (w & r & -> & ->). cbn [app].
      split; [|split; [|split]].
      - apply (preceded_by_prefix _ _ [_; _; _]); [cbn; tauto | in_trace].
      - apply (preceded_by_prefix _ _ [_; _; _]); [cbn; tauto | in_trace].
      - reflexivity.
      - intros Hin. in_trace. }
  destruct Hrun as (t & w & rs & -> & ->). rewrite app_nil_l.
  split; [|split; [|split]].
  - apply preceded_by_prefix; [cbn; tauto | in_trace].
  - apply preceded_by_prefix; [cbn; tauto | in_trace].
  - rewrite !restore_calls_app, restore_calls_reads. now destruct t.
  - intros _. apply preceded_by_prefix; [cbn; tauto | in_trace].
Qed.

(** A process that exits with status 0 leaves the terminal as it found
    it. *)
Lemma run_exit_0_restores tty0 gets sets input w :
  run (boot tty0 gets sets input) = (Exited 0, w) → tty w = tty0.
Proof.
  set (w0 := boot tty0 gets sets input).
  unfold run. rewrite main_unfold.
  destruct (tcgetattr_next w0) as [|e] eqn:Hget.
  2:{ destruct (enableRawMode_tcgetattr_fails _ _ Hget) as (w1 & -> & -> & _).
      cbn. discriminate. }
  destruct (tcsetattr_next w0) as [|e] eqn:Hset.
  2:{ destruct (enableRawMode_tcsetattr_fails _ _ Hget Hset)
        as (w1 & -> & -> & _).
      cbn [atexit_handlers w0 boot].
      destruct (run_atexit_disableRawMode 1 w1) as (w2 & -> & _).
      destruct (tcsetattr_next w1); discriminate. }
  destruct (enableRawMode_success _ Hget Hset) as [w1 Henter].
  rewrite Henter.
  pose proof (enableRawMode_returns _ _ Henter) as (_ & _ & Ho & _ & Ha & _).
  destruct (while_1 _ w1) as [o w2] eqn:Hloop.
  pose proof (while_1_only_reads _ _ _ _ Hloop) as (_ & Ho2 & Ha2 & _).
  assert (Hexit : ∀ status,
            (let (status', w'') := run_atexit (atexit_handlers w2) status w2 in
             (Exited status', w'')) = (Exited 0, w) → tty w = tty0).
  { intros status. rewrite Ha2, Ha. cbn [atexit_handlers w0 boot].
    destruct (run_atexit_disableRawMode status w2) as (w3 & -> & Ht3 & _).
    destruct (tcsetattr_next w2); [|discriminate].
    intros [= _ <-]. now rewrite Ht3, Ho2, Ho. }
  destruct o as [status|status|]; [apply Hexit .. | discriminate].
Qed.

(** * Further properties *)

(** ** The flag fields, bit by bit *)

Lemma to_tcflag_bits z i :
  0 ≤ tcflag_bits →
  Z.testbit (to_tcflag z) i = (i <? tcflag_bits) && Z.testbit z i.
Proof. intros Hw. unfold to_tcflag. now apply Z.testbit_mod_pow2. Qed.

Lemma and_not_bits f m i :
  0 ≤ tcflag_bits → 0 ≤ i →
  Z.testbit (and_not f m) i
  = Z.testbit f i && ((i <? tcflag_bits) && negb (Z.testbit m i)).
Proof.
  intros Hw Hi. unfold and_not.
  now rewrite Z.land_spec, to_tcflag_bits, Z.lnot_spec.
Qed.

Lemma or_in_bits f m i :
  0 ≤ tcflag_bits →
  Z.testbit (or_in f m) i
  = Z.testbit f i || ((i <? tcflag_bits) && Z.testbit m i).
Proof.
  intros Hw. unfold or_in. now rewrite Z.lor_spec, to_tcflag_bits.
Qed.

Lemma tcflag_high_bits f i :
  0 ≤ tcflag_bits →
  0 ≤ f < 2 ^ tcflag_bits → tcflag_bits ≤ i → Z.testbit f i = false.
Proof.
  intros Hw Hf Hi. rewrite <- (Z.mod_small f (2 ^ tcflag_bits)) by lia.
  apply Z.mod_pow2_bits_high. lia.
Qed.

Lemma raw_termios_c_lflag_bits t i :
  0 ≤ tcflag_bits → 0 ≤ i →
  Z.testbit (c_lflag (raw_termios t)) i
  = Z.testbit (c_lflag t) i
    && ((i <? tcflag_bits)
        && negb (Z.testbit (Z.lor (Z.lor (Z.lor ECHO ICANON) IEXTEN) ISIG) i)).
Proof. intros Hw Hi. cbn. now apply and_not_bits. Qed.

Lemma raw_termios_c_iflag_bits t i :
  0 ≤ tcflag_bits → 0 ≤ i →
  Z.testbit (c_iflag (raw_termios t)) i
  = (Z.testbit (c_iflag t) i
     && ((i <? tcflag_bits)
         && negb (Z.testbit
                    (Z.lor (Z.lor (Z.lor (Z.lor BRKINT ICRNL) INPCK) ISTRIP)
                       IXON) i))
     && ((i <? tcflag_bits) && negb (Z.testbit OPOST i)))
    || ((i <? tcflag_bits) && Z.testbit CS8 i).
Proof.
  intros Hw Hi. cbn. now rewrite or_in_bits, !and_not_bits.
Qed.

Ltac bitwise :=
  apply Z.bits_inj'; intros ? ?;
  repeat first [rewrite Z.land_spec | rewrite Z.lor_spec | rewrite Z.bits_0].

(** X1. When [enableRawMode] returns, the applied configuration has
    [c_cc[VMIN]] equal to 0 and [c_cc[VTIME]] equal to 1 (given that the
    two indices are different and inside the array). *)
Theorem enableRawMode_read_timing w w' :
  enableRawMode w = (Ret tt, w') →
  (VMIN < length (c_cc (tty w)))%nat →
  (VTIME < length (c_cc (tty w)))%nat →
  VMIN ≠ VTIME →
  c_cc (tty w') !! VMIN = Some 0 ∧ c_cc (tty w') !! VTIME = Some 1.
Proof.
  intros Hrun Hmin Htime Hne. apply enableRawMode_returns in Hrun.
  destruct Hrun as (_ & _ & _ & -> & _). cbn. split.
  - rewrite list_lookup_insert_ne by congruence.
    now apply list_lookup_insert_eq.
  - apply list_lookup_insert_eq. now rewrite length_insert.
Qed.

(** X2. When [enableRawMode] returns, [ECHO], [ICANON], [IEXTEN] and
    [ISIG] are all off in the applied [c_lflag], and every other bit of
    [c_lflag] is as the terminal had it. *)
Theorem enableRawMode_c_lflag w w' :
  enableRawMode w = (Ret tt, w') →
  0 ≤ tcflag_bits →
  0 ≤ c_lflag (tty w) < 2 ^ tcflag_bits →
  Z.land (c_lflag (tty w')) ECHO = 0
  ∧ Z.land (c_lflag (tty w')) ICANON = 0
  ∧ Z.land (c_lflag (tty w')) IEXTEN = 0
  ∧ Z.land (c_lflag (tty w')) ISIG = 0
  ∧ ∀ i, 0 ≤ i →
      Z.testbit (Z.lor (Z.lor (Z.lor ECHO ICANON) IEXTEN) ISIG) i = false →
      Z.testbit (c_lflag (tty w')) i = Z.testbit (c_lflag (tty w)) i.
Proof.
  intros Hrun Hw Hrange. apply enableRawMode_returns in Hrun.
  destruct Hrun as (_ & _ & _ & -> & _).
  repeat split.
  1-4: bitwise; rewrite raw_termios_c_lflag_bits, !Z.lor_spec by assumption;
       repeat match goal with |- context [Z.testbit ?a ?n] =>
         destruct (Z.testbit a n) end;
       now destruct (_ <? _).
  intros i Hi Hmask. rewrite raw_termios_c_lflag_bits, Hmask by assumption.
  destruct (Z.ltb_spec i tcflag_bits) as [Hlt|Hge].
  - now rewrite !andb_true_r.
  - rewrite (tcflag_high_bits _ _ Hw Hrange Hge). reflexivity.
Qed.

(** X3. When [enableRawMode] returns, each bit of the applied [c_iflag]
    inside the width of [tcflag_t] is set if it is a bit of [CS8], and
    otherwise is the terminal's bit with the bits of [BRKINT], [ICRNL],
    [INPCK], [ISTRIP], [IXON] and [OPOST] turned off. *)
Theorem enableRawMode_c_iflag w w' i :
  enableRawMode w = (Ret tt, w') →
  0 ≤ i < tcflag_bits →
  Z.testbit (c_iflag (tty w')) i
  = (Z.testbit (c_iflag (tty w)) i
     && negb (Z.testbit
                (Z.lor (Z.lor (Z.lor (Z.lor (Z.lor BRKINT ICRNL) INPCK) ISTRIP)
                          IXON) OPOST) i))
    || Z.testbit CS8 i.
Proof.
  intros Hrun Hi. apply enableRawMode_returns in Hrun.
  destruct Hrun as (_ & _ & _ & -> & _).
  rewrite raw_termios_c_iflag_bits by lia.
  replace (i <? tcflag_bits) with true by (symmetry; apply Z.ltb_lt; lia).
  rewrite (Z.lor_spec _ OPOST), negb_orb. cbn [andb].
  now rewrite andb_assoc.
Qed.

Lemma termios_eq (a b : termios) :
  c_iflag a = c_iflag b → c_oflag a = c_oflag b → c_cflag a = c_cflag b →
  c_lflag a = c_lflag b → c_line a = c_line b → c_cc a = c_cc b →
  c_ispeed a = c_ispeed b → c_ospeed a = c_ospeed b →
  a = b.
Proof. destruct a, b. cbn. now intros -> -> -> -> -> -> -> ->. Qed.

Lemma raw_termios_c_cc_eq t :
  c_cc (raw_termios t) = <[VTIME := 1]> (<[VMIN := 0]> (c_cc t)).
Proof. reflexivity. Qed.

Lemma raw_termios_idempotent t :
  0 ≤ tcflag_bits → raw_termios (raw_termios t) = raw_termios t.
Proof.
  intros Hw. apply termios_eq; try reflexivity.
  - bitwise. rewrite !raw_termios_c_iflag_bits, !Z.lor_spec by assumption.
    repeat match goal with |- context [Z.testbit ?a ?n] =>
      destruct (Z.testbit a n) end;
    now destruct (_ <? _).
  - bitwise. rewrite !raw_termios_c_lflag_bits, !Z.lor_spec by assumption.
    repeat match goal with |- context [Z.testbit ?a ?n] =>
      destruct (Z.testbit a n) end;
    now destruct (_ <? _).
  - rewrite !raw_termios_c_cc_eq.
    destruct (decide (VMIN = VTIME)) as [Heq|Hne].
    + now rewrite Heq, !list_insert_insert_eq.
    + rewrite (list_insert_insert_ne _ VMIN VTIME 0 1) by assumption.
      now rewrite !list_insert_insert_eq.
Qed.

(** X4. Entering raw mode a second time, with the terminal already raw,
    applies the configuration that is already there. *)
Theorem enableRawMode_twice w w1 w2 :
  enableRawMode w = (Ret tt, w1) →
  enableRawMode w1 = (Ret tt, w2) →
  0 ≤ tcflag_bits →
  tty w2 = tty w1.
Proof.
  intros H1 H2 Hw.
  apply enableRawMode_returns in H1. destruct H1 as (_ & _ & _ & Ht1 & _).
  apply enableRawMode_returns in H2. destruct H2 as (_ & _ & _ & Ht2 & _).
  rewrite Ht2, Ht1. now apply raw_termios_idempotent.
Qed.

(** ** The loop against its input *)

Lemma string_app_assoc (a b c : string) :
  ((a ++ b) ++ c = a ++ (b ++ c))%string.
Proof. induction a as [|x a IH]; cbn; [reflexivity | now rewrite IH]. Qed.

Lemma string_app_nil_r (a : string) : (a ++ "" = a)%string.
Proof. induction a as [|x a IH]; cbn; [reflexivity | now rewrite IH]. Qed.

Lemma loop_body_pass w r rest :
  stdin w = r :: rest →
  ∃ w1, loop_body w = (pass_end r, w1)
        ∧ stdin w1 = rest
        ∧ trace w1 = trace w ++ [Ev_read r]
        ∧ stdout w1 = (stdout w ++ line_of r)%string
        ∧ stderr w1 = stderr w ++ report_of r.
Proof.
  intros Hin. destruct r as [b| |e].
  - rewrite (loop_body_byte _ _ _ Hin). eexists.
    unfold pass_end. rewrite char_to_int_q. split; [reflexivity|].
    cbn. now rewrite app_nil_r.
  - rewrite (loop_body_none _ _ Hin). eexists. split; [reflexivity|].
    unfold line_of. cbn. rewrite char_to_int_zero. now rewrite app_nil_r.
  - unfold line_of, report_of, pass_end.
    destruct (Z.eq_dec e EAGAIN) as [->|Hne].
    + rewrite (loop_body_EAGAIN _ _ Hin), Z.eqb_refl.
      eexists. split; [reflexivity|].
      cbn. rewrite char_to_int_zero. now rewrite app_nil_r.
    + rewrite (loop_body_fatal _ _ _ Hin Hne).
      apply Z.eqb_neq in Hne. rewrite Hne.
      eexists. split; [reflexivity|].
      cbn. now rewrite string_app_nil_r.
Qed.

Lemma pass_end_not_blocked r : pass_end r ≠ Blocked.
Proof. destruct r as [b| |e]; cbn; try discriminate. now destruct (e =? EAGAIN). Qed.

Lemma pass_end_exit r s : pass_end r = Exit s → s = 1.
Proof.
  destruct r as [b| |e]; cbn; try discriminate.
  destruct (e =? EAGAIN); [discriminate|]. now intros [= <-].
Qed.

Lemma loop_end_exit input s : loop_end input = Exit s → s = 1.
Proof.
  induction input as [|r input IH]; cbn; [discriminate|].
  destruct (pass_end r) as [[]|s'|] eqn:Hpass; try discriminate; auto.
  intros [= <-]. now apply pass_end_exit in Hpass.
Qed.

(** The loop on a state whose script is [stdin w], given fuel for it. *)
Lemma while_1_spec fuel w :
  (length (stdin w) < fuel)%nat →
  ∃ w', while_1 fuel w = (loop_end (stdin w), w')
        ∧ stdin w = consumed (stdin w) ++ stdin w'
        ∧ trace w' = trace w ++ map Ev_read (consumed (stdin w))
        ∧ stdout w' = (stdout w ++ lines (consumed (stdin w)))%string
        ∧ stderr w' = stderr w ++ reports (consumed (stdin w)).
Proof.
  revert w. induction fuel as [|fuel IH]; intros w Hlt; [lia|].
  rewrite while_1_S. destruct (stdin w) as [|r rest] eqn:Hin.
  - rewrite (loop_body_blocked _ Hin). exists w. cbn.
    now rewrite Hin, !app_nil_r, string_app_nil_r.
  - destruct (loop_body_pass _ _ _ Hin) as (w1 & -> & Hin1 & Htr1 & Hout1 & Herr1).
    cbn [loop_end consumed]. unfold stops.
    destruct (pass_end r) as [[]|s|] eqn:Hpass.
    + exists w1. cbn. now rewrite Hin1, string_app_nil_r, app_nil_r.
    + destruct (IH w1) as (w' & -> & Hin' & Htr' & Hout' & Herr').
      { rewrite Hin1. cbn in Hlt. lia. }
      rewrite Hin1 in *. exists w'. split; [reflexivity|].
      cbn. rewrite <- Hin'. split; [reflexivity|].
      rewrite Htr', Htr1, Hout', Hout1, Herr', Herr1.
      now rewrite <- !app_assoc, string_app_assoc.
    + exists w1. cbn. now rewrite Hin1, string_app_nil_r, app_nil_r.
    + now apply pass_end_not_blocked in Hpass.
Qed.

Lemma reads_of_app a b : reads_of (a ++ b) = reads_of a ++ reads_of b.
Proof. unfold reads_of. apply flat_map_app. Qed.

Lemma reads_of_reads rs : reads_of (map Ev_read rs) = rs.
Proof.
  unfold reads_of. induction rs as [|r rs IH]; cbn; [reflexivity|].
  now rewrite IH.
Qed.

Lemma consumed_last input pre r post :
  consumed input = pre ++ r :: post → post ≠ [] → stops r = false.
Proof.
  revert pre. induction input as [|x input IH]; intros pre; cbn.
  - now destruct pre.
  - destruct (stops x) eqn:Hx.
    + destruct pre as [|y [|z pre]]; cbn; intros [= ]; subst; congruence.
    + destruct pre as [|y pre]; cbn; intros [= ]; subst; eauto.
Qed.

Lemma loop_end_blocked input :
  loop_end input = Blocked ↔ Forall (fun r => stops r = false) input.
Proof.
  induction input as [|r input IH]; cbn; [now split|].
  unfold stops in *. rewrite Forall_cons.
  destruct (pass_end r) as [[]|s|] eqn:Hpass.
  - split; [discriminate | now intros [? _]].
  - rewrite IH. tauto.
  - split; [discriminate | now intros [? _]].
  - now apply pass_end_not_blocked in Hpass.
Qed.

Lemma consumed_all input :
  Forall (fun r => stops r = false) input → consumed input = input.
Proof.
  induction 1 as [|r input Hr _ IH]; cbn; [reflexivity|].
  now rewrite Hr, IH.
Qed.

(** ** The process against its input *)

Lemma enableRawMode_returns_stderr w w' :
  enableRawMode w = (Ret tt, w') → stderr w' = stderr w.
Proof.
  exec. cbn.
  destruct (hd Success (tcgetattr_results w)); cbn; [|intros [=]].
  destruct (hd Success (tcsetattr_results w)); cbn; now intros [= <-].
Qed.

Lemma run_atexit_disableRawMode_orig status w :
  orig_termios (snd (run_atexit [Handler_disableRawMode] status w))
  = orig_termios w.
Proof.
  cbn [run_atexit call]. exec. cbn.
  now destruct (hd Success (tcsetattr_results w)).
Qed.

(** The run of a process whose [enableRawMode] succeeds, as a function of
    the input and of the outcome of the restoration. *)
Lemma run_spec tty0 gets sets input :
  hd Success gets = Success →
  hd Success sets = Success →
  ∃ w,
    run (boot tty0 gets sets input)
    = (match loop_end input, restore_result sets with
       | Blocked, _ => Reading
       | Ret _, Success => Exited 0
       | Exit s, Success => Exited s
       | _, Failure _ => Exited 1
       end, w)
    ∧ input = consumed input ++ stdin w
    ∧ reads_of (trace w) = consumed input
    ∧ stdout w = lines (consumed input)
    ∧ stderr w = reports (consumed input)
                 ++ match loop_end input, restore_result sets with
                    | Blocked, _ | _, Success => []
                    | _, Failure e => [("tcsetattr", e)]
                    end
    ∧ tty w = match loop_end input, restore_result sets with
              | Blocked, _ | _, Failure _ => raw_termios tty0
              | _, Success => tty0
              end
    ∧ orig_termios w = tty0
    ∧ restore_calls (trace w) = match loop_end input with
                                | Blocked => 0%nat
                                | _ => 1%nat
                                end.
Proof.
  intros Hget Hset. set (w0 := boot tty0 gets sets input).
  destruct (enableRawMode_success w0 Hget Hset) as [w1 Henter].
  pose proof (enableRawMode_returns_stderr _ _ Henter) as Herr1.
  pose proof (enableRawMode_returns _ _ Henter)
    as (_ & _ & Ho1 & Ht1 & Ha1 & _ & Hs1 & Hin1 & Hout1 & Htr1).
  cbn [w0 boot tty atexit_handlers tcsetattr_results stdin stdout stderr trace]
    in Ho1, Ht1, Ha1, Hs1, Hin1, Hout1, Htr1, Herr1.
  unfold run. rewrite main_unfold, Henter. cbn [w0 boot stdin].
  destruct (while_1_spec (S (length input)) w1)
    as (w2 & Hloop & Hin2 & Htr2 & Hout2 & Herr2); [rewrite Hin1; lia|].
  pose proof (while_1_only_reads _ _ _ _ Hloop)
    as (Ht2 & Ho2 & Ha2 & _ & Hs2 & _).
  rewrite Hloop, Hin1 in *. rewrite Hout1 in Hout2. rewrite Herr1 in Herr2.
  rewrite Htr1 in Htr2. cbn [app] in Htr2, Herr2.
  assert (Hreads : reads_of (trace w2) = consumed input).
  { rewrite Htr2. cbn. now rewrite reads_of_reads. }
  assert (Hcalls : restore_calls (trace w2) = 0%nat).
  { rewrite Htr2.
    change (restore_calls (map Ev_read (consumed input)) = 0%nat).
    apply restore_calls_reads. }
  assert (Hexit : ∀ status, ∃ w,
    (let (status', w'') := run_atexit (atexit_handlers w2) status w2 in
     (Exited status', w''))
    = (Exited match restore_result sets with
              | Success => status
              | Failure _ => 1
              end, w)
    ∧ input = consumed input ++ stdin w
    ∧ reads_of (trace w) = consumed input
    ∧ stdout w = lines (consumed input)
    ∧ stderr w = reports (consumed input)
                 ++ match restore_result sets with
                    | Success => []
                    | Failure e => [("tcsetattr", e)]
                    end
    ∧ tty w = match restore_result sets with
              | Success => tty0
              | Failure _ => raw_termios tty0
              end
    ∧ orig_termios w = tty0
    ∧ restore_calls (trace w) = 1%nat).
  { intros status. rewrite Ha2, Ha1.
    pose proof (run_atexit_disableRawMode_orig status w2) as Ho3.
    destruct (run_atexit_disableRawMode status w2)
      as (w3 & Hrun3 & Ht3 & Hout3 & Hin3 & Herr3 & Htr3).
    rewrite Hrun3 in *. cbn [snd] in Ho3.
    unfold tcsetattr_next in *. rewrite Hs2, Hs1 in *.
    fold (restore_result sets) in *.
    exists w3. split; [reflexivity|].
    rewrite Hin3, Hout3, Ho3, Htr3, reads_of_app, restore_calls_app.
    rewrite Hreads, Hcalls, Ho2, Ho1.
    repeat split; try assumption.
    - cbn. now rewrite app_nil_r.
    - rewrite Herr3, Herr2. destruct (restore_result sets);
        [now rewrite app_nil_r | reflexivity].
    - rewrite Ht3. destruct (restore_result sets); congruence. }
  destruct (loop_end input) as [[]|s|] eqn:Hend.
  - destruct (Hexit 0) as (w & -> & H). exists w.
    split; [now destruct (restore_result sets)|].
    destruct (restore_result sets); exact H.
  - destruct (Hexit s) as (w & -> & H). exists w.
    split; [now destruct (restore_result sets)|].
    destruct (restore_result sets); exact H.
  - exists w2. split; [reflexivity|].
    rewrite app_nil_r.
    repeat split; try assumption; congruence.
Qed.

Lemma char_to_int_is_q b : char_to_int b = 113 → b = "q"%char.
Proof.
  pose proof (N_of_ascii_lt_256 b) as Hlt. unfold char_to_int.
  intros Hq. rewrite <- (ascii_N_embedding b).
  replace (N_of_ascii b) with 113%N; [reflexivity|].
  destruct (char_signed && (128 <=? Z.of_N (N_of_ascii b))); lia.
Qed.

Lemma stops_iff r :
  stops r = true
  ↔ r = Read_byte "q" ∨ ∃ e, r = Read_error e ∧ e ≠ EAGAIN.
Proof.
  unfold stops, pass_end. destruct r as [b| |e].
  - rewrite char_to_int_q. destruct (Z.eqb_spec (char_to_int b) 113) as [Hq|Hq].
    + apply char_to_int_is_q in Hq. subst. split; auto.
    + split; [discriminate|]. intros [[= ->]|(e & [=] & _)].
      now rewrite char_to_int_q in Hq.
  - split; [discriminate|]. now intros [[=]|(e & [=] & _)].
  - destruct (Z.eqb_spec e EAGAIN) as [->|Hne].
    + split; [discriminate|]. intros [[=]|(e & [= <-] & Hne)]. congruence.
    + split; eauto.
Qed.

Lemma stops_false_iff r :
  stops r = false
  ↔ r ≠ Read_byte "q" ∧ ∀ e, r = Read_error e → e = EAGAIN.
Proof.
  pose proof (stops_iff r) as Hiff. destruct (stops r).
  - split; [discriminate|]. intros [Hq Herr].
    destruct (proj1 Hiff eq_refl) as [->|(e & -> & Hne)];
      [congruence | now specialize (Herr e eq_refl)].
  - split; [|reflexivity]. intros _. split.
    + intros Hq. assert (Habs : false = true) by (apply Hiff; now left).
      discriminate.
    + intros e He. destruct (Z.eq_dec e EAGAIN) as [|Hne]; [assumption|].
      assert (Habs : false = true) by (apply Hiff; eauto). discriminate.
Qed.

Lemma loop_end_prefix pre r post :
  Forall (fun r => stops r = false) pre →
  loop_end (pre ++ r :: post) = loop_end (r :: post)
  ∧ consumed (pre ++ r :: post) = pre ++ consumed (r :: post).
Proof.
  induction 1 as [|x pre Hx _ [IHe IHc]]; [now split|].
  cbn [app loop_end consumed]. rewrite Hx, IHc. unfold stops in Hx.
  destruct (pass_end x) as [[]|s|]; try discriminate. now split.
Qed.

Lemma loop_end_ret input :
  loop_end input = Ret tt
  ↔ ∃ pre post, input = pre ++ Read_byte "q" :: post
                ∧ Forall (fun r => stops r = false) pre.
Proof.
  split.
  - induction input as [|r input IH]; cbn; [discriminate|].
    destruct (pass_end r) as [[]|s|] eqn:Hpass; try discriminate.
    + intros _. exists [], input. split; [|constructor]. cbn. f_equal.
      assert (Hs : stops r = true) by (unfold stops; now rewrite Hpass).
      apply stops_iff in Hs. destruct Hs as [->|(e & -> & Hne)];
        [reflexivity|].
      cbn in Hpass. now destruct (e =? EAGAIN).
    + intros Hend. destruct (IH Hend) as (pre & post & -> & Hpre).
      exists (r :: pre), post. split; [reflexivity|].
      constructor; [|assumption]. unfold stops. now rewrite Hpass.
  - intros (pre & post & -> & Hpre).
    destruct (loop_end_prefix pre (Read_byte "q") post Hpre) as [-> _].
    cbn. now rewrite Z.eqb_refl.
Qed.

Lemma enableRawMode_exits_streams w s w' :
  enableRawMode w = (Exit s, w') → stdout w' = stdout w ∧ stdin w' = stdin w.
Proof.
  exec. cbn.
  destruct (hd Success (tcgetattr_results w)); cbn; [|now intros [= _ <-]].
  destruct (hd Success (tcsetattr_results w)); cbn; [discriminate|].
  now intros [= _ <-].
Qed.

(** The run when [tcgetattr] fails. *)
Lemma run_spec_tcgetattr_fails tty0 gets sets input e :
  hd Success gets = Failure e →
  ∃ w, run (boot tty0 gets sets input) = (Exited 1, w)
       ∧ stderr w = [("tcgetattr", e)]
       ∧ trace w = [Ev_tcgetattr (Failure e)]
       ∧ tty w = tty0
       ∧ stdout w = ""
       ∧ stdin w = input
       ∧ tcsetattr_results w = sets.
Proof.
  intros Hget. unfold run, main. exec. cbn. rewrite Hget. cbn.
  eexists. split; [reflexivity|]. now cbn.
Qed.

(** The run when the [tcsetattr] of [enableRawMode] fails. *)
Lemma run_spec_tcsetattr_fails tty0 gets sets input e :
  hd Success gets = Success →
  hd Success sets = Failure e →
  ∃ w, run (boot tty0 gets sets input) = (Exited 1, w)
       ∧ stderr w = ("tcsetattr", e)
                    :: match restore_result sets with
                       | Success => []
                       | Failure e' => [("tcsetattr", e')]
                       end
       ∧ restore_calls (trace w) = 1%nat
       ∧ reads_of (trace w) = []
       ∧ tty w = tty0
       ∧ orig_termios w = tty0
       ∧ stdout w = ""
       ∧ stdin w = input.
Proof.
  intros Hget Hset. set (w0 := boot tty0 gets sets input).
  destruct (enableRawMode_tcsetattr_fails w0 e Hget Hset)
    as (w1 & Henter & Ha1 & Ht1 & Ho1 & Hs1 & Herr1 & Htr1).
  destruct (enableRawMode_exits_streams _ _ _ Henter) as [Hout1 Hin1].
  unfold run. rewrite main_unfold, Henter, Ha1.
  pose proof (run_atexit_disableRawMode_orig 1 w1) as Ho2.
  destruct (run_atexit_disableRawMode 1 w1)
    as (w2 & Hrun2 & Ht2 & Hout2 & Hin2 & Herr2 & Htr2).
  rewrite Hrun2 in Ho2. cbn [snd] in Ho2.
  unfold tcsetattr_next in *. rewrite Hs1 in *.
  cbn [w0 boot atexit_handlers tcsetattr_results tty stderr stdout stdin trace]
    in *.
  fold (restore_result sets) in *. rewrite Hrun2.
  exists w2. split; [now destruct (restore_result sets)|].
  rewrite Herr2, Herr1, Htr2, Htr1, Hout2, Hout1, Hin2, Hin1, Ho2, Ho1, Ht2.
  repeat split.
  - now destruct (restore_result sets).
  - now destruct (restore_result sets).
Qed.

(** X5. When [tcgetattr] fails, the process ends with status 1 after the
    message of [die("tcgetattr")], and has done nothing else: no
    [tcsetattr] (no restoration either), no read, no output, the terminal
    as it was. *)
Theorem run_tcgetattr_fails tty0 gets sets input e :
  hd Success gets = Failure e →
  ∃ w, run (boot tty0 gets sets input) = (Exited 1, w)
       ∧ stderr w = [("tcgetattr", e)]
       ∧ trace w = [Ev_tcgetattr (Failure e)]
       ∧ tty w = tty0
       ∧ stdout w = ""
       ∧ stdin w = input
       ∧ tcsetattr_results w = sets.
Proof.
  intros Hget. exact (run_spec_tcgetattr_fails tty0 gets sets input e Hget).
Qed.

(** X6. When [tcgetattr] succeeds and the [tcsetattr] of [enableRawMode]
    fails, the process ends with status 1 after the message of
    [die("tcsetattr")]; the restoration is attempted once; no read is
    issued, nothing is printed and the terminal is as it was. *)
Theorem run_raw_tcsetattr_fails tty0 gets sets input e :
  hd Success gets = Success →
  hd Success sets = Failure e →
  ∃ w, run (boot tty0 gets sets input) = (Exited 1, w)
       ∧ stderr w = ("tcsetattr", e)
                    :: match restore_result sets with
                       | Success => []
                       | Failure e' => [("tcsetattr", e')]
                       end
       ∧ restore_calls (trace w) = 1%nat
       ∧ reads_of (trace w) = []
       ∧ tty w = tty0
       ∧ orig_termios w = tty0
       ∧ stdout w = ""
       ∧ stdin w = input.
Proof.
  intros Hget Hset.
  exact (run_spec_tcsetattr_fails tty0 gets sets input e Hget Hset).
Qed.

(** X7. When raw mode was entered and the process exits, but the
    [tcsetattr] of [disableRawMode] fails, the exit status is 1 whatever
    it was going to be, the message of [die("tcsetattr")] is the last one
    on the error stream, and the terminal stays in raw mode. *)
Theorem run_restore_fails tty0 gets sets input e s w :
  hd Success gets = Success →
  hd Success sets = Success →
  restore_result sets = Failure e →
  run (boot tty0 gets sets input) = (Exited s, w) →
  s = 1
  ∧ tty w = raw_termios tty0
  ∧ stderr w = reports (consumed input) ++ [("tcsetattr", e)]
  ∧ restore_calls (trace w) = 1%nat.
Proof.
  intros Hget Hset Hres Hrun.
  destruct (run_spec tty0 gets sets input Hget Hset)
    as (w' & Hrun' & _ & _ & _ & Herr & Htty & _ & Hcalls).
  rewrite Hrun in Hrun'. rewrite Hres in *.
  destruct (loop_end input) as [[]|s'|]; [| |discriminate];
    injection Hrun' as -> ->; auto.
Qed.

(** X8. The exit status of the process is 0 or 1, whatever the terminal
    calls and the input do. *)
Theorem run_exit_status tty0 gets sets input s w :
  run (boot tty0 gets sets input) = (Exited s, w) → s = 0 ∨ s = 1.
Proof.
  intros Hrun.
  destruct (hd Success gets) as [|e] eqn:Hget.
  2:{ destruct (run_spec_tcgetattr_fails tty0 gets sets input e Hget)
        as (w' & Hrun' & _). rewrite Hrun in Hrun'. injection Hrun'. auto. }
  destruct (hd Success sets) as [|e] eqn:Hset.
  2:{ destruct (run_spec_tcsetattr_fails tty0 gets sets input e Hget Hset)
        as (w' & Hrun' & _). rewrite Hrun in Hrun'. injection Hrun'. auto. }
  destruct (run_spec tty0 gets sets input Hget Hset) as (w' & Hrun' & _).
  rewrite Hrun in Hrun'.
  destruct (loop_end input) as [[]|s'|] eqn:Hend;
    destruct (restore_result sets); try discriminate;
    injection Hrun' as -> _; auto.
  right. now apply loop_end_exit in Hend.
Qed.

(** X9. What the process prints is fixed by the input: nothing when
    [enableRawMode] fails, and otherwise the lines of the reads it
    issues, one per read and in their order, where a read that delivers
    nothing or fails with [EAGAIN] gives the line of 0 and a fatal read
    gives no line. *)
Theorem run_stdout tty0 gets sets input :
  stdout (snd (run (boot tty0 gets sets input)))
  = match hd Success gets, hd Success sets with
    | Success, Success => lines (consumed input)
    | _, _ => ""
    end.
Proof.
  destruct (hd Success gets) as [|e] eqn:Hget.
  2:{ destruct (run_spec_tcgetattr_fails tty0 gets sets input e Hget)
        as (w & -> & _ & _ & _ & Hout & _). exact Hout. }
  destruct (hd Success sets) as [|e] eqn:Hset.
  2:{ destruct (run_spec_tcsetattr_fails tty0 gets sets input e Hget Hset)
        as (w & -> & _ & _ & _ & _ & _ & Hout & _). exact Hout. }
  destruct (run_spec tty0 gets sets input Hget Hset)
    as (w & -> & _ & _ & Hout & _). exact Hout.
Qed.

(** X10. The process reads a prefix of its input and leaves the rest
    unread, and it never reads on after a ['q'] or after a failure other
    than [EAGAIN]: among the reads it issued only the last can be
    one of those. *)
Theorem run_reads tty0 gets sets input :
  let w := snd (run (boot tty0 gets sets input)) in
  input = reads_of (trace w) ++ stdin w
  ∧ ∀ pre r post,
      reads_of (trace w) = pre ++ r :: post → post ≠ [] →
      r ≠ Read_byte "q" ∧ ∀ e, r = Read_error e → e = EAGAIN.
Proof.
  cbv zeta. destruct (hd Success gets) as [|e] eqn:Hget.
  2:{ destruct (run_spec_tcgetattr_fails tty0 gets sets input e Hget)
        as (w & -> & _ & Htr & _ & _ & Hin & _). cbn [snd].
      rewrite Htr, Hin. split; [reflexivity|]. now intros [|? ?]. }
  destruct (hd Success sets) as [|e] eqn:Hset.
  2:{ destruct (run_spec_tcsetattr_fails tty0 gets sets input e Hget Hset)
        as (w & -> & _ & _ & Hreads & _ & _ & _ & Hin). cbn [snd].
      rewrite Hreads, Hin. split; [reflexivity|]. now intros [|? ?]. }
  destruct (run_spec tty0 gets sets input Hget Hset)
    as (w & -> & Hin & Hreads & _). cbn [snd]. rewrite Hreads.
  split; [exact Hin|]. intros pre r post Heq Hpost.
  apply stops_false_iff. eapply consumed_last; eauto.
Qed.

(** X11. The process exits with status 0 exactly when [tcgetattr] and
    both [tcsetattr] calls succeed and the input has a ['q'] with, before
    it, no read failure other than [EAGAIN]. *)
Theorem run_exit_0_iff tty0 gets sets input :
  (∃ w, run (boot tty0 gets sets input) = (Exited 0, w))
  ↔ hd Success gets = Success
    ∧ hd Success sets = Success
    ∧ restore_result sets = Success
    ∧ ∃ pre post,
        input = pre ++ Read_byte "q" :: post
        ∧ Forall (fun r => r ≠ Read_byte "q"
                           ∧ ∀ e, r = Read_error e → e = EAGAIN) pre.
Proof.
  split.
  - intros [w Hrun].
    destruct (hd Success gets) as [|e] eqn:Hget.
    2:{ destruct (run_spec_tcgetattr_fails tty0 gets sets input e Hget)
          as (w' & Hrun' & _). rewrite Hrun in Hrun'. discriminate. }
    destruct (hd Success sets) as [|e] eqn:Hset.
    2:{ destruct (run_spec_tcsetattr_fails tty0 gets sets input e Hget Hset)
          as (w' & Hrun' & _). rewrite Hrun in Hrun'. discriminate. }
    destruct (run_spec tty0 gets sets input Hget Hset) as (w' & Hrun' & _).
    rewrite Hrun in Hrun'.
    destruct (loop_end input) as [[]|s'|] eqn:Hend;
      destruct (restore_result sets); try discriminate.
    + repeat split. apply loop_end_ret in Hend.
      destruct Hend as (pre & post & -> & Hpre). exists pre, post.
      split; [reflexivity|].
      eapply Forall_impl; [exact Hpre|]. intros r. apply stops_false_iff.
    + injection Hrun' as <-. now apply loop_end_exit in Hend.
  - intros (Hget & Hset & Hres & pre & post & -> & Hpre).
    destruct (run_spec tty0 gets sets (pre ++ Read_byte "q" :: post) Hget Hset)
      as (w & Hrun & _).
    exists w. rewrite Hrun, Hres.
    replace (loop_end (pre ++ Read_byte "q" :: post)) with (Ret (A:=unit) tt);
      [reflexivity|].
    symmetry. apply loop_end_ret. exists pre, post. split; [reflexivity|].
    eapply Forall_impl; [exact Hpre|]. intros r. apply stops_false_iff.
Qed.

(** X12. Once raw mode is entered, input without a ['q'] and without a
    read failure other than [EAGAIN] never ends the process: all of it is
    read, the loop goes on, the terminal is in raw mode and no
    restoration has run.  Reads that deliver nothing do not end it. *)
Theorem run_keeps_reading tty0 gets sets input :
  hd Success gets = Success →
  hd Success sets = Success →
  Forall (fun r => r ≠ Read_byte "q"
                   ∧ ∀ e, r = Read_error e → e = EAGAIN) input →
  ∃ w, run (boot tty0 gets sets input) = (Reading, w)
       ∧ reads_of (trace w) = input
       ∧ stdin w = []
       ∧ tty w = raw_termios tty0
       ∧ stderr w = []
       ∧ restore_calls (trace w) = 0%nat.
Proof.
  intros Hget Hset Hin.
  assert (Hnon : Forall (fun r => stops r = false) input).
  { eapply Forall_impl; [exact Hin|]. intros r. apply stops_false_iff. }
  destruct (run_spec tty0 gets sets input Hget Hset)
    as (w & Hrun & Hrest & Hreads & _ & Herr & Htty & _ & Hcalls).
  pose proof (proj2 (loop_end_blocked input) Hnon) as Hend.
  rewrite Hend in *. rewrite (consumed_all _ Hnon) in *.
  exists w. repeat split; try assumption.
  - symmetry in Hrest. rewrite <- (app_nil_r input) in Hrest at 2.
    now apply app_inv_head in Hrest.
  - rewrite Herr, app_nil_r. clear -Hnon.
    induction Hnon as [|r rs Hr _ IH]; [reflexivity|].
    unfold reports in *. cbn. rewrite IH, app_nil_r.
    unfold report_of, stops in *.
    destruct r; [reflexivity ..|]. now destruct (pass_end (Read_error e)) as [[]| |].
Qed.

Lemma reports_nonstop rs :
  Forall (fun r => stops r = false) rs → reports rs = [].
Proof.
  induction 1 as [|r rs Hr _ IH]; [reflexivity|].
  unfold reports in *. cbn. rewrite IH, app_nil_r.
  unfold report_of, stops in *.
  destruct r; [reflexivity ..|].
  now destruct (pass_end (Read_error e)) as [[]| |].
Qed.

Lemma reports_app a b : reports (a ++ b) = reports a ++ reports b.
Proof. unfold reports. apply flat_map_app. Qed.

Lemma lines_app a b : lines (a ++ b) = (lines a ++ lines b)%string.
Proof.
  induction a as [|r a IH]; cbn; [reflexivity|].
  unfold lines in *. now rewrite IH, string_app_assoc.
Qed.

(** X13. For a byte below 128 the printed line is made of printable
    ASCII characters (32 to 126) followed by carriage return and line
    feed: a control byte is shown as a number, never sent as it is. *)
Theorem printed_line_printable b :
  (N_of_ascii b < 128)%N →
  ∃ body,
    printed_line (char_to_int b) = (body ++ CRLF)%string
    ∧ forallb printable (list_ascii_of_string body) = true.
Proof.
  intros Hlt. rewrite (char_to_int_7bit b Hlt).
  exists (if iscntrl (Z.of_N (N_of_ascii b))
          then fmt_d (Z.of_N (N_of_ascii b))
          else fmt_d (Z.of_N (N_of_ascii b)) ++ " ('"
               ++ fmt_c (Z.of_N (N_of_ascii b)) ++ "')")%string.
  split.
  - unfold printed_line. destruct (iscntrl _); [reflexivity|].
    now rewrite !string_app_assoc.
  - destruct b as [[] [] [] [] [] [] [] []];
      try (vm_compute in Hlt; discriminate); vm_compute; reflexivity.
Qed.

(** X14. Once [tcgetattr] has succeeded, [orig_termios] holds the
    configuration the terminal had at the start, and still holds it when
    the run is over, however the run went. *)
Theorem run_snapshot tty0 gets sets input :
  hd Success gets = Success →
  orig_termios (snd (run (boot tty0 gets sets input))) = tty0.
Proof.
  intros Hget. destruct (hd Success sets) as [|e] eqn:Hset.
  - destruct (run_spec tty0 gets sets input Hget Hset)
      as (w & -> & _ & _ & _ & _ & _ & Ho & _). exact Ho.
  - destruct (run_spec_tcsetattr_fails tty0 gets sets input e Hget Hset)
      as (w & -> & _ & _ & _ & _ & Ho & _). exact Ho.
Qed.

(** X15. If the process exits, with whatever status, and the [tcsetattr]
    of the restoration does not fail, the terminal is left in the
    configuration it had at the start. *)
Theorem run_restored_on_exit tty0 gets sets input s w :
  run (boot tty0 gets sets input) = (Exited s, w) →
  restore_result sets = Success →
  tty w = tty0.
Proof.
  intros Hrun Hres.
  destruct (hd Success gets) as [|e] eqn:Hget.
  2:{ destruct (run_spec_tcgetattr_fails tty0 gets sets input e Hget)
        as (w' & Hrun' & _ & _ & Htty & _).
      rewrite Hrun in Hrun'. now injection Hrun' as _ ->. }
  destruct (hd Success sets) as [|e] eqn:Hset.
  2:{ destruct (run_spec_tcsetattr_fails tty0 gets sets input e Hget Hset)
        as (w' & Hrun' & _ & _ & _ & Htty & _).
      rewrite Hrun in Hrun'. now injection Hrun' as _ ->. }
  destruct (run_spec tty0 gets sets input Hget Hset)
    as (w' & Hrun' & _ & _ & _ & _ & Htty & _).
  rewrite Hrun in Hrun'. rewrite Hres in *.
  destruct (loop_end input) as [[]|s'|]; [| |discriminate];
    now injection Hrun' as _ ->.
Qed.

(** X16. A read failure other than [EAGAIN] ends the process with status
    1: the lines of the reads before it are printed, [die("read")]
    reports it, the input after it is not read, and (the restoration
    succeeding) the terminal is left as it was found. *)
Theorem run_fatal_read tty0 gets sets pre e post :
  hd Success gets = Success →
  hd Success sets = Success →
  restore_result sets = Success →
  e ≠ EAGAIN →
  Forall (fun r => r ≠ Read_byte "q"
                   ∧ ∀ e, r = Read_error e → e = EAGAIN) pre →
  ∃ w, run (boot tty0 gets sets (pre ++ Read_error e :: post)) = (Exited 1, w)
       ∧ stderr w = [("read", e)]
       ∧ stdout w = lines pre
       ∧ stdin w = post
       ∧ tty w = tty0.
Proof.
  intros Hget Hset Hres Hne Hpre.
  assert (Hnon : Forall (fun r => stops r = false) pre).
  { eapply Forall_impl; [exact Hpre|]. intros r. apply stops_false_iff. }
  destruct (run_spec tty0 gets sets (pre ++ Read_error e :: post) Hget Hset)
    as (w & Hrun & Hrest & _ & Hout & Herr & Htty & _).
  destruct (loop_end_prefix pre (Read_error e) post Hnon) as [Hend Hcons].
  apply Z.eqb_neq in Hne.
  assert (Hend' : loop_end (Read_error e :: post) = Exit 1)
    by (cbn; now rewrite Hne).
  assert (Hcons' : consumed (Read_error e :: post) = [Read_error e])
    by (cbn; unfold stops; cbn; now rewrite Hne).
  rewrite Hend, Hend', Hcons, Hcons', Hres in *.
  exists w. split; [exact Hrun|].
  split.
  { rewrite Herr, reports_app, (reports_nonstop _ Hnon), app_nil_r.
    unfold reports, report_of. cbn. now rewrite Hne. }
  split.
  { rewrite Hout, lines_app. unfold lines at 2, line_of. cbn.
    rewrite Hne. now rewrite string_app_nil_r. }
  split; [|exact Htty].
  rewrite <- app_assoc in Hrest. cbn in Hrest.
  apply app_inv_head in Hrest. now injection Hrest.
Qed.

(** X17. Whatever happens, the terminal ends in one of two
    configurations: the one it had at the start, or the raw one derived
    from it. *)
Theorem run_terminal_two_states tty0 gets sets input :
  let w := snd (run (boot tty0 gets sets input)) in
  tty w = tty0 ∨ tty w = raw_termios tty0.
Proof.
  cbv zeta. destruct (hd Success gets) as [|e] eqn:Hget.
  2:{ destruct (run_spec_tcgetattr_fails tty0 gets sets input e Hget)
        as (w & -> & _ & _ & Htty & _). now left. }
  destruct (hd Success sets) as [|e] eqn:Hset.
  2:{ destruct (run_spec_tcsetattr_fails tty0 gets sets input e Hget Hset)
        as (w & -> & _ & _ & _ & Htty & _). now left. }
  destruct (run_spec tty0 gets sets input Hget Hset)
    as (w & -> & _ & _ & _ & _ & Htty & _). cbn [snd]. rewrite Htty.
  destruct (loop_end input) as [[]|s|], (restore_result sets); auto.
Qed.

(** X18. When [enableRawMode] returns, every bit of [CS8] is on in the
    applied [c_iflag], and each of [BRKINT], [ICRNL], [INPCK], [ISTRIP],
    [IXON] and [OPOST] that shares no bit with [CS8] is off in it. *)
Theorem enableRawMode_c_iflag_flags w w' :
  enableRawMode w = (Ret tt, w') →
  0 ≤ tcflag_bits →
  0 ≤ CS8 < 2 ^ tcflag_bits →
  Z.land (c_iflag (tty w')) CS8 = CS8
  ∧ ∀ F, In F [BRKINT; ICRNL; INPCK; ISTRIP; IXON; OPOST] →
         Z.land F CS8 = 0 →
         Z.land (c_iflag (tty w')) F = 0.
Proof.
  intros Hrun Hw Hcs8. apply enableRawMode_returns in Hrun.
  destruct Hrun as (_ & _ & _ & -> & _). split.
  - bitwise. rewrite raw_termios_c_iflag_bits by assumption.
    destruct (Z.ltb_spec n tcflag_bits) as [Hlt|Hge].
    + cbn [andb]. now destruct (Z.testbit CS8 n); rewrite ?orb_true_r, ?andb_false_r.
    + rewrite (tcflag_high_bits _ _ Hw Hcs8 Hge). now rewrite andb_false_r.
  - intros F HF Hdisjoint.
    assert (Hbits : ∀ i, Z.testbit F i && Z.testbit CS8 i = false).
    { intros i. rewrite <- Z.land_spec, Hdisjoint. apply Z.bits_0. }
    bitwise. rewrite raw_termios_c_iflag_bits, !Z.lor_spec by assumption.
    specialize (Hbits n). cbn in HF.
    destruct HF as [<-|[<-|[<-|[<-|[<-|[<-|[]]]]]]];
      repeat match goal with
             | H : context [Z.testbit ?a ?n] |- _ => destruct (Z.testbit a n)
             | |- context [Z.testbit ?a ?n] => destruct (Z.testbit a n)
             end;
      try discriminate; now destruct (_ <? _).
Qed.

(** ** Any sequence of entries and restorations *)

Lemma run_ops_restored t0 ops :
  ∀ w w',
    run_ops ops w = (Ret tt, w') →
    no_reentry ops = true →
    orig_termios w = t0 →
    tty w = t0 ∨ (∃ rest, ops = Restore :: rest) →
    tty w' = t0 ∧ orig_termios w' = t0.
Proof.
  induction ops as [|o ops IH]; intros w w' Hrun Hok Horig Hstate.
  - cbn in Hrun. injection Hrun as <-.
    destruct Hstate as [Ht|(rest & [=])]. now split.
  - cbn [run_ops] in Hrun. apply bind_returns in Hrun.
    destruct Hrun as ([] & w1 & Hop & Hrest). destruct o; cbn [do_op] in Hop.
    + destruct Hstate as [Ht|(rest & [=])].
      apply enableRawMode_returns in Hop.
      destruct Hop as (_ & _ & Ho1 & _).
      cbn [no_reentry] in Hok. destruct ops as [|[] rest]; try discriminate.
      apply (IH w1 w' Hrest Hok); [congruence | eauto].
    + apply disableRawMode_returns in Hop.
      destruct Hop as (_ & Ht1 & Ho1 & _).
      cbn [no_reentry] in Hok.
      apply (IH w1 w' Hrest Hok); [congruence | left; congruence].
Qed.

(** C6 (amended). Restoration fidelity.  Take any sequence of entries
    and restorations that begins with an entry and in which every entry
    has a restoration right after it (raw mode is never entered while it
    is on).  If the sequence runs to the end, the terminal is in the
    configuration it had before the first entry, field for field, and
    that configuration is what [orig_termios] holds. *)
Theorem run_ops_fidelity ops w w' :
  no_reentry (Enter :: ops) = true →
  run_ops (Enter :: ops) w = (Ret tt, w') →
  tty w' = tty w ∧ orig_termios w' = tty w.
Proof.
  intros Hok Hrun. cbn [run_ops] in Hrun. apply bind_returns in Hrun.
  destruct Hrun as ([] & w1 & Henter & Hrest). cbn [do_op] in Henter.
  apply enableRawMode_returns in Henter.
  destruct Henter as (_ & _ & Ho1 & _).
  cbn [no_reentry] in Hok. destruct ops as [|[] rest]; try discriminate.
  apply (run_ops_restored (tty w) _ w1 w' Hrest Hok Ho1). eauto.
Qed.

(** While every call on the terminal succeeds, any sequence of entries
    and restorations runs to the end. *)
Lemma run_ops_succeed ops w :
  Forall (eq Success) (tcgetattr_results w) →
  Forall (eq Success) (tcsetattr_results w) →
  ∃ w', run_ops ops w = (Ret tt, w').
Proof.
  revert w. induction ops as [|o ops IH]; intros w Hgets Hsets;
    cbn [run_ops].
  - now exists w.
  - assert (∃ w1, do_op o w = (Ret tt, w1)
                  ∧ Forall (eq Success) (tcgetattr_results w1)
                  ∧ Forall (eq Success) (tcsetattr_results w1))
      as (w1 & Hop & Hg1 & Hs1).
    { destruct o; cbn [do_op].
      - destruct (enableRawMode_success w) as [w1 H1];
          [now apply Forall_success_hd ..|].
        pose proof (enableRawMode_returns _ _ H1)
          as (_ & _ & _ & _ & _ & Hg & Hs & _).
        exists w1. rewrite Hg, Hs.
        split; [assumption|]. split; now apply Forall_success_tl.
      - destruct (disableRawMode_success w) as [w1 H1];
          [now apply Forall_success_hd|].
        pose proof (disableRawMode_returns _ _ H1)
          as (_ & _ & _ & _ & Hg & Hs & _).
        exists w1. rewrite Hg, Hs.
        split; [assumption|]. split; [assumption|].
        now apply Forall_success_tl. }
    destruct (IH w1 Hg1 Hs1) as [w' Hrest].
    exists w'. unfold bind. now rewrite Hop.
Qed.

End Properties.

(** * The program on Linux

    The statements above hold on every platform.  Below they are applied,
    and the program is run, with the constants of [linux_x86_64] on the
    sample terminals. *)

#[local] Existing Instance linux_x86_64.

(** The state [enableRawMode] leaves when started on the [cooked]
    terminal. *)
Definition raw_session : world := snd (enableRawMode (boot cooked [] [] [])).

Example printed_line_0x03 : printed_line (char_to_int "003") = ("3" ++ CRLF)%string.
Proof. reflexivity. Qed.

Example printed_line_0x61 :
  printed_line (char_to_int "a") = ("97 ('a')" ++ CRLF)%string.
Proof. reflexivity. Qed.

Example raw_termios_cooked_c_iflag : c_iflag (raw_termios cooked) = 0x4030.
Proof. reflexivity. Qed.

(** [enableRawMode] stores into [orig_termios] on every call: entered a
    second time with no restoration in between, it captures the raw
    configuration, and that is what [disableRawMode] then installs. *)
Example reentry_captures_raw :
  ∃ w, (enableRawMode >> enableRawMode >> disableRawMode)
         (boot cooked [] [] []) = (Ret tt, w)
       ∧ orig_termios w = raw_termios cooked
       ∧ tty w = raw_termios cooked.
Proof. eexists. split; [vm_compute; reflexivity|]. now vm_compute. Qed.

(** C1. [cooked] has [OPOST] set in [c_oflag].  [enableRawMode] returns
    and the configuration it has applied still has [OPOST] set in
    [c_oflag]: line 95 clears the bit of that value in [c_iflag]
    instead. *)
Theorem enableRawMode_leaves_OPOST :
  ∃ w', enableRawMode (boot cooked [] [] []) = (Ret tt, w')
        ∧ Z.land (c_oflag (orig_termios w')) OPOST = OPOST
        ∧ Z.land (c_oflag (tty w')) OPOST = OPOST
        ∧ c_oflag (tty w') = c_oflag cooked.
Proof. eexists. split; [vm_compute; reflexivity|]. now vm_compute. Qed.

(** C5. [cooked_cs7] has the character size 7 ([CS7], 0x20) in
    [c_cflag].  [enableRawMode] returns and the configuration it has
    applied still has that size, not [CS8]: line 96 sets the bits of
    [CS8] in [c_iflag] instead, where on Linux they are [INPCK] and
    [ISTRIP]. *)
Theorem enableRawMode_leaves_character_size :
  ∃ w', enableRawMode (boot cooked_cs7 [] [] []) = (Ret tt, w')
        ∧ Z.land (c_cflag (tty w')) CS8 = 0x20
        ∧ Z.land (c_cflag (tty w')) CS8 ≠ CS8
        ∧ c_cflag (tty w') = c_cflag cooked_cs7
        ∧ Z.land (c_iflag (tty w')) (Z.lor INPCK ISTRIP) = Z.lor INPCK ISTRIP.
Proof. eexists. split; [vm_compute; reflexivity|]. now vm_compute. Qed.

(** ** Counterexamples *)

(** C2 as stated fails: a pass whose [read] delivers nothing prints a
    line. *)
Lemma zero_byte_pass_prints :
  let w := boot cooked [] [] [Read_none] in
  ∃ w', loop_body w = (Ret false, w')
        ∧ stdout w' = ("0" ++ CRLF)%string
        ∧ stdout w' ≠ stdout w.
Proof. eexists. split; [vm_compute; reflexivity|]. now vm_compute. Qed.

(** C3 as stated fails: an interrupted [read] ends the process with
    status 1 and the message of [die("read")]. *)
Lemma interrupted_read_is_fatal :
  ∃ w', run (boot cooked [] [] [Read_error EINTR; Read_byte "q"])
          = (Exited 1, w')
        ∧ stderr w' = [("read", EINTR)]
        ∧ stdin w' = [Read_byte "q"].
Proof. eexists. split; [vm_compute; reflexivity|]. now vm_compute. Qed.

(** C4 as stated fails.  When the [tcsetattr] of [enableRawMode] fails
    (here with [EIO]), [disableRawMode] runs although [enableRawMode]
    has not returned; when [tcgetattr] fails (here with [ENOTTY]), it
    does not run at all. *)
Lemma restore_without_completed_enter :
  (let (t, w) := run (boot cooked [] [Failure 5] []) in
   t = Exited 1
   ∧ restore_calls (trace w) = 1%nat
   ∧ ¬ In Ev_return_enableRawMode (trace w)
   ∧ ¬ preceded_by Ev_return_enableRawMode Ev_call_disableRawMode (trace w))
  ∧ (let (t, w) := run (boot cooked [Failure 25] [] []) in
     t = Exited 1 ∧ restore_calls (trace w) = 0%nat).
Proof.
  split; [|now vm_compute].
  vm_compute run. repeat split.
  - cbn. intros [H|[H|[H|[H|[H|[]]]]]]; discriminate.
  - intros Hpre. specialize (Hpre [_; _; _] [_] eq_refl).
    cbn in Hpre. destruct Hpre as [H|[H|[H|[]]]]; discriminate.
Qed.

(** C6 as stated fails.  Entering raw mode twice and then restoring runs
    to the end and leaves the terminal in the raw configuration, not in
    the one it had before the first entry: the second entry has stored
    the raw configuration in [orig_termios]. *)
Lemma run_ops_reentry :
  ∃ w, run_ops [Enter; Enter; Restore] (boot cooked [] [] []) = (Ret tt, w)
       ∧ tty w = raw_termios cooked
       ∧ orig_termios w = raw_termios cooked
       ∧ tty w ≠ cooked.
Proof.
  eexists. split; [vm_compute; reflexivity|].
  split; [now vm_compute|]. split; [now vm_compute|].
  vm_compute. discriminate.
Qed.

(** C9 as stated fails.  On Linux, where [char] is signed, the byte 255
    is printed with the numeral of -1, not with its decimal value. *)
Lemma high_byte_prints_negative :
  let w := set_stdin [Read_byte "255"] raw_session in
  ∃ stop w',
    loop_body w = (Ret stop, w')
    ∧ stdout w' = (fmt_d (-1) ++ " ('" ++ String "255" "" ++ "')" ++ CRLF)%string
    ∧ stdout w' ≠ (fmt_d 255 ++ " ('" ++ String "255" "" ++ "')" ++ CRLF)%string
    ∧ parse_d (fmt_d (-1)) ≠ Some 255.
Proof.
  do 2 eexists. split; [vm_compute; reflexivity|].
  split; [now vm_compute|]. split; vm_compute; discriminate.
Qed.

(** ** The theorems at work

    Each statement above that has a premise, applied to a run on the
    [cooked] terminal. *)

Lemma enableRawMode_frame_cooked :
  let w := boot cooked [] [] [] in
  enableRawMode w = (Ret tt, raw_session)
  ∧ orig_termios raw_session = cooked
  ∧ c_oflag (tty raw_session) = c_oflag (orig_termios raw_session)
  ∧ c_cflag (tty raw_session) = c_cflag (orig_termios raw_session).
Proof.
  intros w.
  assert (Hrun : enableRawMode w = (Ret tt, raw_session))
    by (vm_compute; reflexivity).
  split; [exact Hrun|].
  destruct (enableRawMode_frame w raw_session Hrun) as (Ho & Hof & Hcf & _).
  repeat split; assumption.
Defined.

Lemma disableRawMode_idempotent_raw_session :
  let w1 := snd (disableRawMode raw_session) in
  let w2 := snd (disableRawMode w1) in
  disableRawMode raw_session = (Ret tt, w1)
  ∧ disableRawMode w1 = (Ret tt, w2)
  ∧ tty w2 = tty w1
  ∧ tty w1 = cooked
  ∧ orig_termios w2 = orig_termios raw_session.
Proof.
  intros w1 w2.
  assert (H1 : disableRawMode raw_session = (Ret tt, w1))
    by (vm_compute; reflexivity).
  assert (H2 : disableRawMode w1 = (Ret tt, w2))
    by (vm_compute; reflexivity).
  destruct (disableRawMode_idempotent raw_session w1 w2 H1 H2)
    as (Ht & _ & Ho).
  repeat split; assumption.
Defined.

Lemma restoration_fidelity_cooked :
  let w := boot cooked [] [] [] in
  let w' := snd (sessions [0; 2; 1]%nat w) in
  sessions [0; 2; 1]%nat w = (Ret tt, w')
  ∧ tty w' = cooked
  ∧ orig_termios w' = cooked.
Proof.
  intros w w'.
  assert (Hrun : sessions [0; 2; 1]%nat w = (Ret tt, w'))
    by (vm_compute; reflexivity).
  split; [exact Hrun|].
  apply (restoration_fidelity [0; 2; 1]%nat w w'); [discriminate | exact Hrun].
Defined.

Lemma zero_byte_pass_cooked :
  let w := set_stdin [Read_none; Read_byte "q"] raw_session in
  stdin w = [Read_none; Read_byte "q"]
  ∧ ∃ w', loop_body w = (Ret false, w')
          ∧ stdout w' = ("0" ++ CRLF)%string
          ∧ while_1 2 w = while_1 1 w'.
Proof.
  intros w. split; [reflexivity|].
  destruct (zero_byte_pass w [Read_byte "q"] 1 eq_refl)
    as (Hbody & Hloop & _).
  eexists. split; [exact Hbody|]. split; [reflexivity | exact Hloop].
Defined.

Lemma read_failure_policy_cooked :
  (let w := set_stdin [Read_error EAGAIN] raw_session in
   ∃ w', loop_body w = (Ret false, w') ∧ stderr w' = stderr w)
  ∧ (let w := set_stdin [Read_error EINTR] raw_session in
     ∃ w', loop_body w = (Exit 1, w')
           ∧ stderr w' = stderr w ++ [("read", EINTR)]).
Proof.
  split; intros w.
  - destruct (proj1 (read_failure_policy w EAGAIN [] eq_refl) eq_refl)
      as (w' & Hbody & Herr & _).
    exists w'. split; assumption.
  - assert (Hne : EINTR ≠ EAGAIN) by discriminate.
    destruct (proj2 (read_failure_policy w EINTR [] eq_refl) Hne)
      as (w' & Hbody & Herr & _).
    exists w'. split; assumption.
Defined.

Lemma run_a_b_q_cooked :
  ∃ w,
    run (boot cooked [] [] [Read_byte "a"; Read_byte "b"; Read_byte "q";
                           Read_byte "z"])
      = (Exited 0, w)
    ∧ stdout w = ("97 ('a')" ++ CRLF ++ "98 ('b')" ++ CRLF
                  ++ "113 ('q')" ++ CRLF)%string
    ∧ stdin w = [Read_byte "z"]
    ∧ tty w = cooked.
Proof.
  destruct (run_a_b_q cooked [] [] [Read_byte "z"] eq_refl eq_refl eq_refl)
    as (w & Hrun & Hout & Hin & _ & _ & Htty).
  exists w. repeat split; assumption.
Defined.

Lemma byte_classification_0x03_0x61 :
  (let w := set_stdin [Read_byte "003"] raw_session in
   ∃ stop w', loop_body w = (Ret stop, w')
              ∧ stdout w' = ("3" ++ CRLF)%string)
  ∧ (let w := set_stdin [Read_byte "a"] raw_session in
     ∃ stop w', loop_body w = (Ret stop, w')
                ∧ stdout w' = ("97 ('a')" ++ CRLF)%string)
  ∧ (let w := set_stdin [Read_byte "255"] raw_session in
     ∃ stop w', loop_body w = (Ret stop, w')
                ∧ stdout w' = ("-1 ('" ++ String "255" "" ++ "')" ++ CRLF)%string).
Proof.
  split; [|split]; intros w.
  - destruct (byte_classification w "003" [] eq_refl)
      as (stop & w' & Hbody & Hout & _).
    exists stop, w'. split; [exact Hbody | exact Hout].
  - destruct (byte_classification w "a" [] eq_refl)
      as (stop & w' & Hbody & Hout & _).
    exists stop, w'. split; [exact Hbody | exact Hout].
  - destruct (byte_classification w "255" [] eq_refl)
      as (stop & w' & Hbody & Hout & _).
    exists stop, w'. split; [exact Hbody | exact Hout].
Defined.

Lemma restore_once_after_capture_cooked :
  let (t, w) := run (boot cooked [] [] [Read_byte "q"]) in
  t = Exited 0
  ∧ restore_calls (trace w) = 1%nat
  ∧ preceded_by Ev_return_enableRawMode Ev_call_disableRawMode (trace w).
Proof.
  pose proof (restore_once_after_capture cooked [] [] [Read_byte "q"])
    as Hthm.
  destruct (run (boot cooked [] [] [Read_byte "q"])) as [t w] eqn:Hrun.
  destruct Hthm as (_ & _ & Hcount & Hafter).
  assert (Ht : t = Exited 0) by (vm_compute in Hrun; congruence).
  split; [exact Ht|]. rewrite Ht in Hcount. split; [exact Hcount|].
  apply Hafter. vm_compute in Hrun. injection Hrun as _ <-.
  cbn. tauto.
Defined.

(** ** The further properties at work *)

Lemma raw_session_returns :
  enableRawMode (boot cooked [] [] []) = (Ret tt, raw_session).
Proof. vm_compute. reflexivity. Defined.

Lemma enableRawMode_read_timing_cooked :
  c_cc cooked !! VMIN = Some 1 ∧ c_cc cooked !! VTIME = Some 0
  ∧ c_cc (tty raw_session) !! VMIN = Some 0
  ∧ c_cc (tty raw_session) !! VTIME = Some 1.
Proof.
  split; [reflexivity|]. split; [reflexivity|].
  apply (enableRawMode_read_timing (boot cooked [] [] []) raw_session).
  - exact raw_session_returns.
  - cbn. lia.
  - cbn. lia.
  - discriminate.
Defined.

Lemma enableRawMode_c_lflag_cooked :
  Z.land (c_lflag cooked) ECHO = ECHO
  ∧ Z.land (c_lflag (tty raw_session)) ECHO = 0
  ∧ Z.land (c_lflag (tty raw_session)) ICANON = 0
  ∧ Z.land (c_lflag (tty raw_session)) IEXTEN = 0
  ∧ Z.land (c_lflag (tty raw_session)) ISIG = 0.
Proof.
  split; [reflexivity|].
  destruct (enableRawMode_c_lflag (boot cooked [] [] []) raw_session)
    as (He & Hc & Hx & Hs & _).
  - exact raw_session_returns.
  - cbn. lia.
  - cbn. lia.
  - repeat split; assumption.
Defined.

Lemma enableRawMode_c_iflag_cooked :
  Z.testbit (c_iflag cooked) 4 = false
  ∧ Z.testbit (c_iflag (tty raw_session)) 4 = true.
Proof.
  split; [reflexivity|].
  rewrite (enableRawMode_c_iflag (boot cooked [] [] []) raw_session 4).
  - reflexivity.
  - exact raw_session_returns.
  - cbn. lia.
Defined.

Lemma enableRawMode_twice_cooked :
  let w2 := snd (enableRawMode raw_session) in
  enableRawMode raw_session = (Ret tt, w2)
  ∧ tty w2 = tty raw_session.
Proof.
  intros w2.
  assert (H2 : enableRawMode raw_session = (Ret tt, w2))
    by (vm_compute; reflexivity).
  split; [exact H2|].
  apply (enableRawMode_twice (boot cooked [] [] []) raw_session w2).
  - exact raw_session_returns.
  - exact H2.
  - cbn. lia.
Defined.

Lemma enableRawMode_c_iflag_flags_cooked :
  Z.land (c_iflag (tty raw_session)) (Z.lor INPCK ISTRIP) = Z.lor INPCK ISTRIP
  ∧ Z.land (c_iflag (tty raw_session)) ICRNL = 0
  ∧ Z.land (c_iflag (tty raw_session)) IXON = 0.
Proof.
  destruct (enableRawMode_c_iflag_flags (boot cooked [] [] []) raw_session)
    as (Hon & Hoff).
  - exact raw_session_returns.
  - cbn. lia.
  - cbn. lia.
  - split; [exact Hon|]. split.
    + apply Hoff; [cbn; tauto | reflexivity].
    + apply Hoff; [cbn; tauto | reflexivity].
Defined.

Lemma run_tcgetattr_fails_cooked :
  ∃ w, run (boot cooked [Failure 25] [] [Read_byte "q"]) = (Exited 1, w)
       ∧ stderr w = [("tcgetattr", 25)]
       ∧ tty w = cooked
       ∧ stdin w = [Read_byte "q"].
Proof.
  destruct (run_tcgetattr_fails cooked [Failure 25] [] [Read_byte "q"] 25
              eq_refl)
    as (w & Hrun & Herr & _ & Htty & _ & Hin & _).
  exists w. repeat split; assumption.
Defined.

Lemma run_raw_tcsetattr_fails_cooked :
  ∃ w, run (boot cooked [] [Failure 5] [Read_byte "q"]) = (Exited 1, w)
       ∧ stderr w = [("tcsetattr", 5)]
       ∧ restore_calls (trace w) = 1%nat
       ∧ tty w = cooked
       ∧ stdin w = [Read_byte "q"].
Proof.
  destruct (run_raw_tcsetattr_fails cooked [] [Failure 5] [Read_byte "q"] 5
              eq_refl eq_refl)
    as (w & Hrun & Herr & Hcalls & _ & Htty & _ & _ & Hin).
  exists w. repeat split; assumption.
Defined.

Lemma run_restore_fails_cooked :
  let r := run (boot cooked [] [Success; Failure 5] [Read_byte "q"]) in
  r = (Exited 1, snd r)
  ∧ tty (snd r) = raw_termios cooked
  ∧ stderr (snd r) = [("tcsetattr", 5)].
Proof.
  intros r.
  assert (Hrun : r = (Exited 1, snd r)) by (vm_compute; reflexivity).
  split; [exact Hrun|].
  destruct (run_restore_fails cooked [] [Success; Failure 5] [Read_byte "q"]
              5 1 (snd r) eq_refl eq_refl eq_refl Hrun)
    as (_ & Htty & Herr & _).
  split; [exact Htty | exact Herr].
Defined.

Lemma run_exit_status_cooked :
  let r := run (boot cooked [] [] [Read_error EINTR]) in
  r = (Exited 1, snd r) ∧ (1 = 0 ∨ 1 = 1).
Proof.
  intros r.
  assert (Hrun : r = (Exited 1, snd r)) by (vm_compute; reflexivity).
  split; [exact Hrun|].
  exact (run_exit_status cooked [] [] [Read_error EINTR] 1 (snd r) Hrun).
Defined.

Lemma run_keeps_reading_cooked :
  ∃ w, run (boot cooked [] [] [Read_none; Read_error EAGAIN; Read_byte "a"])
       = (Reading, w)
       ∧ stdin w = []
       ∧ tty w = raw_termios cooked.
Proof.
  destruct (run_keeps_reading cooked [] []
              [Read_none; Read_error EAGAIN; Read_byte "a"] eq_refl eq_refl)
    as (w & Hrun & _ & Hin & Htty & _).
  - repeat constructor; try discriminate. now intros e [= <-].
  - exists w. repeat split; assumption.
Defined.

Lemma printed_line_printable_a :
  (N_of_ascii "a" < 128)%N
  ∧ ∃ body, printed_line (char_to_int "a") = (body ++ CRLF)%string
            ∧ forallb printable (list_ascii_of_string body) = true.
Proof.
  split; [reflexivity|]. apply printed_line_printable. reflexivity.
Defined.

Lemma run_snapshot_cooked :
  orig_termios (snd (run (boot cooked [] [Failure 5] []))) = cooked
  ∧ orig_termios (snd (run (boot cooked [] [] [Read_byte "q"]))) = cooked.
Proof.
  split.
  - exact (run_snapshot cooked [] [Failure 5] [] eq_refl).
  - exact (run_snapshot cooked [] [] [Read_byte "q"] eq_refl).
Defined.

Lemma run_restored_on_exit_cooked :
  let r := run (boot cooked [] [] [Read_error EINTR]) in
  r = (Exited 1, snd r) ∧ tty (snd r) = cooked.
Proof.
  intros r.
  assert (Hrun : r = (Exited 1, snd r)) by (vm_compute; reflexivity).
  split; [exact Hrun|].
  exact (run_restored_on_exit cooked [] [] [Read_error EINTR] 1 (snd r)
           Hrun eq_refl).
Defined.

Lemma run_fatal_read_cooked :
  ∃ w, run (boot cooked [] []
              ([Read_byte "a"; Read_none] ++ Read_error EINTR
               :: [Read_byte "q"]))
       = (Exited 1, w)
       ∧ stderr w = [("read", EINTR)]
       ∧ stdout w = ("97 ('a')" ++ CRLF ++ "0" ++ CRLF)%string
       ∧ stdin w = [Read_byte "q"]
       ∧ tty w = cooked.
Proof.
  destruct (run_fatal_read cooked [] [] [Read_byte "a"; Read_none] EINTR
              [Read_byte "q"] eq_refl eq_refl eq_refl)
    as (w & Hrun & Herr & Hout & Hin & Htty).
  - discriminate.
  - repeat constructor; discriminate.
  - exists w. repeat split; assumption.
Defined.

Lemma run_ops_fidelity_cooked :
  let ops := [Restore; Restore; Enter; Restore; Enter; Restore] in
  let w := boot cooked [] [] [] in
  let w' := snd (run_ops (Enter :: ops) w) in
  no_reentry (Enter :: ops) = true
  ∧ run_ops (Enter :: ops) w = (Ret tt, w')
  ∧ tty w' = cooked
  ∧ orig_termios w' = cooked.
Proof.
  intros ops w w'.
  assert (Hok : no_reentry (Enter :: ops) = true) by reflexivity.
  assert (Hrun : run_ops (Enter :: ops) w = (Ret tt, w'))
    by (vm_compute; reflexivity).
  split; [exact Hok|]. split; [exact Hrun|].
  exact (run_ops_fidelity ops w w' Hok Hrun).
Defined.
